(** * sign-alpha-server: price feed, price hub, symbol swap and dashboard core

    A shallow embedding of the Go sources

    - [binance.go]  : the upstream feed client ([BinanceClient]),
    - [handlers.go] : the price hub ([Server]),
    - [main.go]     : the [/api/symbol] handler,
    - the terminal dashboard,

    followed by the properties the specification states about them.

    The dashboard comes in two versions.  The one embedded here is the later
    one, with the history view; the earlier one has no history view, starts
    in the dashboard mode and does not set the timer again at the end of a
    swap, and has the same [fetchData], the same [dataMsg] case and the same
    [renderSparkline].

    Conventions of the embedding.

    - A Go [float64] is an exact rational ([Q]): sums, differences, products
      and quotients are exact, and there is no NaN and no infinity.  The
      conversion [int(x)] is truncation toward zero.
    - A Go [int] is a [Z]; a [string] is a [string].
    - A [*websocket.Conn] is an identifier ([Conn]); whether a connection has
      been closed is kept next to the structure that owns the pointer.
    - [map[*websocket.Conn]bool], whose values are always [true], is a finite
      set ([gset Conn]); the order in which Go ranges over it is not fixed, so
      statements about a range are up to permutation.
    - A channel of capacity one carrying [struct{}] is a [bool]: [true] when
      the slot is occupied.
    - A call that indexes a slice out of range panics: [None]. *)

From Stdlib Require Import ZArith QArith Qround Qminmax Lia Lqa List.
From stdpp Require Import base option list gmap strings.

Local Open Scope string_scope.
Local Open Scope list_scope.
Local Open Scope Z_scope.

(** ** Numbers *)

Module Num.

(** [x < y] on [float64], as a boolean. *)
Definition Qltb (x y : Q) : bool := negb (Qle_bool y x).

(** [int(x)] for a [float64] [x]: the fractional part is discarded. *)
Definition trunc (x : Q) : Z := Z.quot (Qnum x) (Zpos (Qden x)).

End Num.

(** ** Dashboard core (the terminal client) *)

Module Dashboard.
Import Num.

(** *** Data *)

Record SymbolResponse := { sr_Symbol : string; sr_Name : string }.
Record PriceResponse := { pr_Price : Q }.
Record StatsResponse := { st_MovingAverage : Q; st_High : Q; st_Low : Q }.
Record CoinInfo := { ci_Symbol : string; ci_Name : string }.
Record HistoryTrade := { ht_Symbol : string; ht_Price : Q; ht_Timestamp : Z }.

Record DashboardData := mkData {
  Symbol : string;
  CoinName : string;
  Price : Q;
  PrevPrice : Q;
  High : Q;
  Low : Q;
  MovingAverage : Q;
  Change : Q;
  ChangePercent : Q;
  Connected : bool;
  Error : string
}.

(** [DashboardData{}] *)
Definition zeroData : DashboardData :=
  mkData "" "" 0 0 0 0 0 0 0 false "".

Inductive viewMode := dashboardView | coinSelectView | historyView.

Definition viewMode_eqb (a b : viewMode) : bool :=
  match a, b with
  | dashboardView, dashboardView
  | coinSelectView, coinSelectView
  | historyView, historyView => true
  | _, _ => false
  end.

(** Messages delivered to [Update]; [otherMsg] stands for every message type
    the [switch] has no case for. *)
Inductive Msg :=
| KeyMsg (key : string)
| tickMsg
| dataMsg (d : DashboardData)
| coinsMsg (cs : list CoinInfo)
| historyMsg (h : list HistoryTrade)
| symbolChangedMsg
| otherMsg.

(** Commands returned by [Update]; [tea.Batch] is the list. *)
Inductive Cmd :=
| Quit
| fetchCoins
| fetchHistory
| fetchDataCmd
| tick
| changeSymbol (symbol : string).

Record model := mkModel {
  mode : viewMode;
  data : DashboardData;
  history : list Q;
  dbHistory : list HistoryTrade;
  quitting : bool;
  coins : list CoinInfo;
  coinCursor : Z;
  switching : bool;
  historyScroll : Z
}.

Definition initialModel : model :=
  mkModel coinSelectView zeroData [] [] false [] 0 false 0.

Definition Init : list Cmd := [fetchCoins].

(** Field updates, one per assignment form of the source. *)
Definition set_Error (e : string) (d : DashboardData) : DashboardData :=
  mkData (Symbol d) (CoinName d) (Price d) (PrevPrice d) (High d) (Low d)
         (MovingAverage d) (Change d) (ChangePercent d) (Connected d) e.
Definition set_SymbolName (s n : string) (d : DashboardData) : DashboardData :=
  mkData s n (Price d) (PrevPrice d) (High d) (Low d)
         (MovingAverage d) (Change d) (ChangePercent d) (Connected d) (Error d).
Definition set_Price (p : Q) (d : DashboardData) : DashboardData :=
  mkData (Symbol d) (CoinName d) p (PrevPrice d) (High d) (Low d)
         (MovingAverage d) (Change d) (ChangePercent d) (Connected d) (Error d).
Definition set_Stats (ma hi lo : Q) (d : DashboardData) : DashboardData :=
  mkData (Symbol d) (CoinName d) (Price d) (PrevPrice d) hi lo
         ma (Change d) (ChangePercent d) (Connected d) (Error d).
Definition set_Connected (c : bool) (d : DashboardData) : DashboardData :=
  mkData (Symbol d) (CoinName d) (Price d) (PrevPrice d) (High d) (Low d)
         (MovingAverage d) (Change d) (ChangePercent d) c (Error d).
Definition set_Change (c pct : Q) (d : DashboardData) : DashboardData :=
  mkData (Symbol d) (CoinName d) (Price d) (PrevPrice d) (High d) (Low d)
         (MovingAverage d) c pct (Connected d) (Error d).
Definition set_PrevPrice (p : Q) (d : DashboardData) : DashboardData :=
  mkData (Symbol d) (CoinName d) (Price d) p (High d) (Low d)
         (MovingAverage d) (Change d) (ChangePercent d) (Connected d) (Error d).

Definition set_mode (v : viewMode) (m : model) : model :=
  mkModel v (data m) (history m) (dbHistory m) (quitting m) (coins m)
          (coinCursor m) (switching m) (historyScroll m).
Definition set_data (d : DashboardData) (m : model) : model :=
  mkModel (mode m) d (history m) (dbHistory m) (quitting m) (coins m)
          (coinCursor m) (switching m) (historyScroll m).
Definition set_history (h : list Q) (m : model) : model :=
  mkModel (mode m) (data m) h (dbHistory m) (quitting m) (coins m)
          (coinCursor m) (switching m) (historyScroll m).
Definition set_dbHistory (h : list HistoryTrade) (m : model) : model :=
  mkModel (mode m) (data m) (history m) h (quitting m) (coins m)
          (coinCursor m) (switching m) (historyScroll m).
Definition set_quitting (q : bool) (m : model) : model :=
  mkModel (mode m) (data m) (history m) (dbHistory m) q (coins m)
          (coinCursor m) (switching m) (historyScroll m).
Definition set_coins (cs : list CoinInfo) (m : model) : model :=
  mkModel (mode m) (data m) (history m) (dbHistory m) (quitting m) cs
          (coinCursor m) (switching m) (historyScroll m).
Definition set_coinCursor (c : Z) (m : model) : model :=
  mkModel (mode m) (data m) (history m) (dbHistory m) (quitting m) (coins m)
          c (switching m) (historyScroll m).
Definition set_switching (s : bool) (m : model) : model :=
  mkModel (mode m) (data m) (history m) (dbHistory m) (quitting m) (coins m)
          (coinCursor m) s (historyScroll m).
Definition set_historyScroll (s : Z) (m : model) : model :=
  mkModel (mode m) (data m) (history m) (dbHistory m) (quitting m) (coins m)
          (coinCursor m) (switching m) s.

(** *** One poll: [fetchData] *)

(** What one [http.Get] followed by the JSON decoding of its body gives:
    the request itself fails ([GetErr]), or it returns and the body decodes
    ([GetOk (Some r)]) or does not ([GetOk None]). *)
Inductive fetched (A : Type) :=
| GetErr
| GetOk (body : option A).
Arguments GetErr {A}.
Arguments GetOk {A} body.

(** The server as one poll sees it. *)
Record PollEnv := {
  symbolStage : fetched SymbolResponse;
  priceStage : fetched PriceResponse;
  statsStage : fetched StatsResponse
}.

(** [fetchData], returning the message and the requests that were issued. *)
Definition fetchData (env : PollEnv) : DashboardData * list string :=
  let data := zeroData in
  match symbolStage env with
  | GetErr =>
      (set_Error "Server not running. Start with 'make run'" data,
       ["/api/symbol"])
  | GetOk symbolData =>
      let data := match symbolData with
                  | Some r => set_SymbolName (sr_Symbol r) (sr_Name r) data
                  | None => data
                  end in
      match priceStage env with
      | GetErr =>
          (set_Error "Failed to fetch price" data,
           ["/api/symbol"; "/api/price"])
      | GetOk priceData =>
          let data := match priceData with
                      | Some r => set_Price (pr_Price r) data
                      | None => data
                      end in
          match statsStage env with
          | GetErr =>
              (set_Error "Failed to fetch stats" data,
               ["/api/symbol"; "/api/price"; "/api/stats"])
          | GetOk statsData =>
              let data := match statsData with
                          | Some r => set_Stats (st_MovingAverage r)
                                                (st_High r) (st_Low r) data
                          | None => data
                          end in
              (set_Connected true data,
               ["/api/symbol"; "/api/price"; "/api/stats"])
          end
      end
  end.

(** *** The update function *)

Definition key_in (key : string) (ks : list string) : bool :=
  existsb (String.eqb key) ks.

(** [m.coins[i]] *)
Definition index {A} (l : list A) (i : Z) : option A :=
  if i <? 0 then None else l !! Z.to_nat i.

(** The [for i, coin := range m.coins] loop of the [coinsMsg] case: the
    index of the first coin whose symbol is the held one. *)
Fixpoint findCoin (sym : string) (cs : list CoinInfo) (i : Z) : option Z :=
  match cs with
  | [] => None
  | c :: cs' => if String.eqb (ci_Symbol c) sym then Some i
                else findCoin sym cs' (i + 1)
  end.

(** The [dataMsg] case. *)
Definition updateData (m : model) (newData : DashboardData) : model :=
  (* Check if symbol changed (reset history) *)
  let m := if negb (String.eqb (Symbol (data m)) "")
              && negb (String.eqb (Symbol (data m)) (Symbol newData))
           then set_history [] m else m in
  (* Calculate change *)
  let newData :=
    if Qltb 0 (Price (data m)) && Qltb 0 (Price newData)
       && String.eqb (Symbol (data m)) (Symbol newData)
    then let change := (Price newData - Price (data m))%Q in
         set_Change change ((change / Price (data m)) * 100)%Q newData
    else newData in
  let newData := set_PrevPrice (Price (data m)) newData in
  let m := set_data newData m in
  (* Update history *)
  if Qltb 0 (Price newData)
  then let m := set_history (history m ++ [Price newData]) m in
       if (20 <? Z.of_nat (length (history m)))
       then set_history (tail (history m)) m else m
  else m.

Definition updateKey (m : model) (key : string)
  : option (model * list Cmd) :=
  match mode m with
  | dashboardView =>
      if key_in key ["ctrl+c"; "q"] then
        Some (set_quitting true m, [Quit])
      else if key_in key ["c"] then
        Some (set_coinCursor 0 (set_mode coinSelectView m), [fetchCoins])
      else if key_in key ["h"] then
        Some (set_historyScroll 0 (set_mode historyView m), [fetchHistory])
      else Some (m, [])
  | coinSelectView =>
      if key_in key ["ctrl+c"; "q"; "esc"] then
        Some (set_mode dashboardView m, [])
      else if key_in key ["up"; "k"] then
        Some (if 0 <? coinCursor m
              then set_coinCursor (coinCursor m - 1) m else m, [])
      else if key_in key ["down"; "j"] then
        Some (if coinCursor m <? Z.of_nat (length (coins m)) - 1
              then set_coinCursor (coinCursor m + 1) m else m, [])
      else if key_in key ["enter"; " "] then
        if 0 <? Z.of_nat (length (coins m)) then
          let m := set_switching true m in
          selectedCoin ← index (coins m) (coinCursor m);
          Some (m, [changeSymbol (ci_Symbol selectedCoin)])
        else Some (m, [])
      else Some (m, [])
  | historyView =>
      if key_in key ["ctrl+c"; "q"; "esc"] then
        Some (set_mode dashboardView m, [fetchDataCmd; tick])
      else if key_in key ["up"; "k"] then
        Some (if 0 <? historyScroll m
              then set_historyScroll (historyScroll m - 1) m else m, [])
      else if key_in key ["down"; "j"] then
        let maxScroll := Z.of_nat (length (dbHistory m)) - 15 in
        let maxScroll := if maxScroll <? 0 then 0 else maxScroll in
        Some (if historyScroll m <? maxScroll
              then set_historyScroll (historyScroll m + 1) m else m, [])
      else if key_in key ["r"] then
        Some (m, [fetchHistory])
      else Some (m, [])
  end.

(** [model.Update]. *)
Definition Update (m : model) (msg : Msg) : option (model * list Cmd) :=
  match msg with
  | KeyMsg key => updateKey m key
  | tickMsg =>
      if viewMode_eqb (mode m) dashboardView && negb (switching m)
      then Some (m, [fetchDataCmd; tick])
      else Some (m, [tick])
  | dataMsg d => Some (updateData m d, [])
  | coinsMsg cs =>
      let m := set_coins cs m in
      Some (match findCoin (Symbol (data m)) (coins m) 0 with
            | Some i => set_coinCursor i m
            | None => m
            end, [])
  | historyMsg h => Some (set_dbHistory h m, [])
  | symbolChangedMsg =>
      Some (set_history [] (set_mode dashboardView (set_switching false m)),
            [fetchDataCmd; tick])
  | otherMsg => Some (m, [])
  end.

(** *** Rendering *)

(** The lipgloss styles of the source, by name. *)
Inductive Style :=
| boxStyle | priceStyle | upStyle | downStyle | labelStyle | valueStyle
| headerStyle | helpStyle | errorStyle | selectedStyle | itemStyle | timeStyle.

(** An argument of [fmt.Sprintf]. *)
Inductive Arg :=
| ArgF (x : Q)
| ArgS (s : string)
| ArgI (n : Z).

(** A piece of rendered text: [Styled st fmt args] is
    [st.Render(fmt.Sprintf(fmt, args...))] (with no argument, the literal
    [fmt]); [Plain s] is an unstyled literal; [Gap] is the blank line that
    separates the blocks of a screen. *)
Inductive Span :=
| Styled (st : Style) (fmt : string) (args : list Arg)
| Plain (s : string)
| Gap.

(** [boxStyle.Render(content)] *)
Record Screen := Box { content : list Span }.

Definition chars : list string :=
  ["▁"; "▂"; "▃"; "▄"; "▅"; "▆"; "▇"; "█"].

(** The body of the first loop of [renderSparkline], on the pair
    [(min, max)]. *)
Definition minmaxStep (acc : Q * Q) (v : Q) : Q * Q :=
  let min := if Qltb v (fst acc) then v else fst acc in
  let max := if Qltb (snd acc) v then v else snd acc in
  (min, max).

(** The first loop: minimum and maximum, both started at the first
    sample. *)
Definition minmax (h : list Q) (h0 : Q) : Q * Q :=
  fold_left minmaxStep h (h0, h0).

(** [rang := max - min; if rang == 0 { rang = 1 }] *)
Definition sparkRange (min max : Q) : Q :=
  let rang := (max - min)%Q in
  if Qeq_bool rang 0 then 1%Q else rang.

(** The level of one sample: [idx], after the clamp. *)
Definition sparkLevel (min rang v : Q) : Z :=
  let normalized := ((v - min) / rang)%Q in
  let idx := trunc (normalized * inject_Z (Z.of_nat (length chars) - 1))%Q in
  if Z.of_nat (length chars) <=? idx
  then Z.of_nat (length chars) - 1 else idx.

(** The style of the glyph at position [i]. *)
Definition sparkStyle (h : list Q) (i : nat) (v : Q) : Style :=
  if (0 <? i)%nat && Qltb (nth (i - 1) h 0%Q) v then upStyle
  else if (0 <? i)%nat && Qltb v (nth (i - 1) h 0%Q) then downStyle
  else valueStyle.

(** The body of the second loop, at position [i]. *)
Definition sparkCell (h : list Q) (min rang : Q) (i : nat) (v : Q)
  : option Span :=
  char ← index chars (sparkLevel min rang v);
  Some (Styled (sparkStyle h i v) char []).

(** [model.renderSparkline] *)
Definition renderSparkline (m : model) : option (list Span) :=
  if (length (history m) <? 2)%nat then
    Some [Styled labelStyle "waiting for data..." []]
  else
    h0 ← index (history m) 0;
    let '(min, max) := minmax (history m) h0 in
    let rang := sparkRange min max in
    mapM (fun iv => sparkCell (history m) min rang (fst iv) (snd iv))
         (imap pair (history m)).

(** [model.viewDashboard] *)
Definition viewDashboard (m : model) : option Screen :=
  if negb (String.eqb (Error (data m)) "") then
    (* Error state *)
    Some (Box [Styled headerStyle "◆ Trading Pipeline Dashboard" []; Gap;
               Styled errorStyle (Error (data m)) []; Gap;
               Styled helpStyle "Press 'q' to quit" []])
  else if negb (Connected (data m)) then
    (* Waiting for data *)
    Some (Box [Styled headerStyle "◆ Trading Pipeline Dashboard" []; Gap;
               Styled labelStyle "Connecting to server..." []; Gap;
               Styled helpStyle "Press 'q' to quit" []])
  else if switching m then
    (* Switching indicator *)
    Some (Box [Styled headerStyle "◆ Trading Pipeline Dashboard" []; Gap;
               Styled labelStyle "Switching coin..." []; Gap;
               Styled helpStyle "Please wait..." []])
  else
    let coinName := if String.eqb (CoinName (data m)) "" then "Crypto"
                    else CoinName (data m) in
    let header := Styled headerStyle "◆ %s Real-Time Dashboard"
                         [ArgS coinName] in
    let priceStr := if Qltb (Price (data m)) 1
                    then Styled priceStyle "$%.6f" [ArgF (Price (data m))]
                    else Styled priceStyle "$%.2f" [ArgF (Price (data m))] in
    let changeStr :=
      if Qltb 0 (Change (data m)) then
        Styled upStyle "▲ +%.2f (+%.4f%%)"
               [ArgF (Change (data m)); ArgF (ChangePercent (data m))]
      else if Qltb (Change (data m)) 0 then
        Styled downStyle "▼ %.2f (%.4f%%)"
               [ArgF (Change (data m)); ArgF (ChangePercent (data m))]
      else Styled labelStyle "━ 0.00 (0.00%)" [] in
    let stats :=
      [Styled labelStyle "Moving Avg:" [];
       Styled valueStyle "$%.2f" [ArgF (MovingAverage (data m))];
       Styled labelStyle "Session High:" [];
       Styled upStyle "$%.2f" [ArgF (High (data m))];
       Styled labelStyle "Session Low:" [];
       Styled downStyle "$%.2f" [ArgF (Low (data m))];
       Styled labelStyle "Spread:" [];
       Styled valueStyle "$%.2f" [ArgF (High (data m) - Low (data m))%Q]] in
    sparkline ← renderSparkline m;
    Some (Box ([header; Gap; priceStr; Plain "  "; changeStr; Gap]
               ++ stats
               ++ [Gap; Styled labelStyle "Price History: " []]
               ++ sparkline
               ++ [Gap;
                   Styled helpStyle
                     "'c': change coin • 'h': view DB history • 'q': quit"
                     []])).

(** *** Vocabulary of the properties *)

(** The three conditions of the change rule, as a proposition. *)
Definition comparable (prev new : DashboardData) : Prop :=
  (0 < Price prev)%Q /\ (0 < Price new)%Q /\ Symbol prev = Symbol new.

(** The poll result carries another symbol than the held, non-empty one. *)
Definition symbolChanged (m : model) (d : DashboardData) : Prop :=
  Symbol (data m) <> "" /\ Symbol (data m) <> Symbol d.

(** The history the [dataMsg] case appends to. *)
Definition kept (m : model) (d : DashboardData) : list Q :=
  if negb (String.eqb (Symbol (data m)) "")
     && negb (String.eqb (Symbol (data m)) (Symbol d))
  then [] else history m.

(** What the history has to satisfy: at most 20 prices, all of them
    strictly positive. *)
Definition ring_ok (h : list Q) : Prop :=
  (length h <= 20)%nat /\ Forall (fun p => (0 < p)%Q) h.

(** A dashboard that shows Bitcoin at 100 and has one price in its history. *)
Definition showingBtc : model :=
  set_history [100%Q]
    (set_mode dashboardView
       (set_data (set_Connected true
                    (set_Price 100
                       (set_SymbolName "btcusdt" "Bitcoin (BTC)" zeroData)))
          initialModel)).

(** A poll against a server that does not answer. *)
Definition serverDown : PollEnv :=
  {| symbolStage := GetErr; priceStage := GetErr; statsStage := GetErr |}.

(** [Update] over the messages of a list, in order. *)
Fixpoint updates (m : model) (msgs : list Msg) : option model :=
  match msgs with
  | [] => Some m
  | msg :: msgs' => '(m', _) ← Update m msg; updates m' msgs'
  end.

Definition pollOf (sym name : string) (price : Q) : PollEnv :=
  {| symbolStage := GetOk (Some {| sr_Symbol := sym; sr_Name := name |});
     priceStage := GetOk (Some {| pr_Price := price |});
     statsStage := GetOk (Some {| st_MovingAverage := price;
                                  st_High := price; st_Low := price |}) |}.

(** The [dataMsg] case over the poll results of a list, in order. *)
Definition polls (m : model) (ds : list DashboardData) : model :=
  fold_left updateData ds m.

(** The requests of a poll, in the order [fetchData] issues them. *)
Definition requests : list string :=
  ["/api/symbol"; "/api/price"; "/api/stats"].

(** The number of the first request of the poll that fails, if one does. *)
Definition firstFailure (env : PollEnv) : option nat :=
  match symbolStage env, priceStage env, statsStage env with
  | GetErr, _, _ => Some 0%nat
  | _, GetErr, _ => Some 1%nat
  | _, _, GetErr => Some 2%nat
  | _, _, _ => None
  end.

(** The screen of the error branch of [viewDashboard]. *)
Definition errorScreen (e : string) : Screen :=
  Box [Styled headerStyle "◆ Trading Pipeline Dashboard" []; Gap;
       Styled errorStyle e []; Gap;
       Styled helpStyle "Press 'q' to quit" []].

(** The sparkline as the spec words it: the divisor is the larger of
    [1e-9] and [max - min]. *)
Definition specLevel (min max v : Q) : Z :=
  let levels := 8 in
  let normalized := ((v - min) / Qmax (1 # 1000000000) (max - min))%Q in
  let idx := Qfloor (normalized * inject_Z (levels - 1))%Q in
  if levels <=? idx then levels - 1 else idx.

(** *** The other views and the commands *)

(** The line feed that ends a row. *)
Definition newline : string := String (Ascii.ascii_of_nat 10) EmptyString.

(** One row of [viewCoinSelect]. *)
Definition coinRow (m : model) (i : nat) (coin : CoinInfo) : list Span :=
  let cursor := if Z.of_nat i =? coinCursor m then "▸ " else "  " in
  let style := if Z.of_nat i =? coinCursor m then selectedStyle
               else itemStyle in
  let current := if String.eqb (ci_Symbol coin) (Symbol (data m))
                 then " (current)" else "" in
  [Styled style "%s%s%s" [ArgS cursor; ArgS (ci_Name coin); ArgS current];
   Plain newline].

(** [model.viewCoinSelect] *)
Definition viewCoinSelect (m : model) : Screen :=
  Box ([Styled headerStyle "Select Cryptocurrency" []; Gap]
       ++ (if (length (coins m) =? 0)%nat
           then [Styled labelStyle "Loading coins..." []]
           else concat (imap (coinRow m) (coins m)))
       ++ [Styled helpStyle
             (newline ++ "↑/↓: navigate • enter: select • esc: cancel") []]).

(** One row of the table of [viewHistory]: the time of the trade, shown in
    the layout [15:04:05], its price with the format it is printed in, and
    its symbol. *)
Record HistoryRow := {
  hr_Time : Z;
  hr_PriceFormat : string;
  hr_Price : Q;
  hr_Symbol : string
}.

(** What [viewHistory] shows under its header: the loading text, or the
    rows and the three numbers of [Showing %d-%d of %d trades]. *)
Inductive HistoryBody :=
| HistoryLoading
| HistoryTable (rows : list HistoryRow) (first last total : Z).

Record HistoryScreen := { hs_coinName : string; hs_body : HistoryBody }.

(** The row of a trade. *)
Definition rowOf (trade : HistoryTrade) : HistoryRow :=
  {| hr_Time := ht_Timestamp trade;
     hr_PriceFormat := if Qltb (ht_Price trade) 1 then "$%.6f" else "$%.2f";
     hr_Price := ht_Price trade;
     hr_Symbol := ht_Symbol trade |}.

(** The body of the loop of [viewHistory] at index [i]. *)
Definition historyRow (m : model) (i : Z) : option HistoryRow :=
  trade ← index (dbHistory m) i;
  Some (rowOf trade).

(** [model.viewHistory] *)
Definition viewHistory (m : model) : option HistoryScreen :=
  let coinName := if String.eqb (CoinName (data m)) "" then "Crypto"
                  else CoinName (data m) in
  if (length (dbHistory m) =? 0)%nat then
    Some {| hs_coinName := coinName; hs_body := HistoryLoading |}
  else
    (* Show trades with scrolling (15 visible) *)
    let endIdx := historyScroll m + 15 in
    let endIdx := if Z.of_nat (length (dbHistory m)) <? endIdx
                  then Z.of_nat (length (dbHistory m)) else endIdx in
    rows ← mapM (historyRow m)
                (seqZ (historyScroll m) (endIdx - historyScroll m));
    Some {| hs_coinName := coinName;
            hs_body := HistoryTable rows (historyScroll m + 1) endIdx
                         (Z.of_nat (length (dbHistory m))) |}.

(** What [View] returns. *)
Inductive Rendered :=
| Goodbye
| CoinSelect (s : Screen)
| History (h : HistoryScreen)
| Dashboard (s : Screen).

(** [model.View] *)
Definition View (m : model) : option Rendered :=
  if quitting m then Some Goodbye
  else match mode m with
       | coinSelectView => Some (CoinSelect (viewCoinSelect m))
       | historyView => History <$> viewHistory m
       | dashboardView => Dashboard <$> viewDashboard m
       end.

(** What running a command gives: [http.Get] or [http.Post] fails ([None]),
    or it returns; for [fetchCoins] and [fetchHistory] the value is what
    [Decode] has left in the variable, its error being ignored. *)
Record CmdEnv := {
  pollEnv : PollEnv;
  coinsReply : option (list CoinInfo);
  historyReply : option (list HistoryTrade);
  postReply : option unit
}.

(** The message a command delivers, if any: [Quit] and a failed
    [changeSymbol] deliver none, and [tick] delivers [tickMsg] after its
    500 milliseconds. *)
Definition runCmd (env : CmdEnv) (c : Cmd) : option Msg :=
  match c with
  | Quit => None
  | fetchCoins => Some (coinsMsg (default [] (coinsReply env)))
  | fetchHistory => Some (historyMsg (default [] (historyReply env)))
  | fetchDataCmd => Some (dataMsg (fst (fetchData (pollEnv env))))
  | tick => Some tickMsg
  | changeSymbol _ => match postReply env with
                      | Some _ => Some symbolChangedMsg
                      | None => None
                      end
  end.

(** *** Vocabulary of the further properties *)

(** The cursor of the coin list is on a row, or on row 0 of an empty
    list. *)
Definition cursor_ok (m : model) : Prop :=
  0 <= coinCursor m <= Z.max 0 (Z.of_nat (length (coins m)) - 1).

(** A message that does not replace the coin list by a shorter one. *)
Definition keepsCoins (m : model) (msg : Msg) : Prop :=
  forall cs, msg = coinsMsg cs -> (length (coins m) <= length cs)%nat.

(** The last [n] elements of a list. *)
Definition lastn {A} (n : nat) (l : list A) : list A :=
  drop (length l - n) l.

(** The timers a step sets: the [tick] commands among its commands. *)
Definition ticksOf (cmds : list Cmd) : nat :=
  length (List.filter (fun c => match c with tick => true | _ => false end)
                      cmds).

(** The keys that leave the history view. *)
Definition leavesHistory (m : model) (msg : Msg) : bool :=
  match msg, mode m with
  | KeyMsg key, historyView => key_in key ["ctrl+c"; "q"; "esc"]
  | _, _ => false
  end.

(** The dashboard as a closed loop: the model, and the number of timers
    that are set and have not fired.  A [tickMsg] can only arrive from one
    of them. *)
Fixpoint timers (n : nat) (m : model) (msgs : list Msg) : option nat :=
  match msgs with
  | [] => Some n
  | msg :: msgs' =>
      '(m', cmds) ← Update m msg;
      match msg with
      | tickMsg => match n with
                   | O => None
                   | S n' => timers (n' + ticksOf cmds) m' msgs'
                   end
      | _ => timers (n + ticksOf cmds) m' msgs'
      end
  end.

(** The number of messages of a run that end a swap or leave the history
    view. *)
Fixpoint rearmings (m : model) (msgs : list Msg) : nat :=
  match msgs with
  | [] => 0
  | msg :: msgs' =>
      match Update m msg with
      | Some (m', _) =>
          ((match msg with
            | symbolChangedMsg => 1
            | _ => if leavesHistory m msg then 1 else 0
            end) + rearmings m' msgs')%nat
      | None => 0%nat
      end
  end.

End Dashboard.

(** ** Feed client ([binance.go]) *)

Module Feed.
Import Num.

Definition Conn := nat.

(** [time.Time], as built by [time.UnixMilli]. *)
Inductive Time := UnixMilli (msec : Z).

Record BinanceTrade := { bt_Price : string; bt_Time : Z }.

Record PriceUpdate := { pu_Price : Q; pu_Time : Time }.

(** The client.  [closed] holds the connections [Close] was called on;
    [restart] is the one-slot channel; the updates sent on [priceChan] are
    outputs of the operations below. *)
Record BinanceClient := mkClient {
  symbol : string;
  conn : option Conn;
  closed : gset Conn;
  restart : bool
}.

Definition NewBinanceClient (sym : string) : BinanceClient :=
  mkClient sym None ∅ false.

Definition GetSymbol (b : BinanceClient) : string := symbol b.

(** The critical section of [ChangeSymbol]. *)
Definition changeSymbolLocked (newSymbol : string) (b : BinanceClient)
  : BinanceClient :=
  mkClient newSymbol (conn b)
           (match conn b with Some c => {[c]} ∪ closed b | None => closed b end)
           (restart b).

(** The [select] of [ChangeSymbol]: a send that does not block; with the
    slot occupied the [default] branch is taken. *)
Definition signalRestart (b : BinanceClient) : BinanceClient :=
  mkClient (symbol b) (conn b) (closed b) true.

(** [BinanceClient.ChangeSymbol], run without interruption. *)
Definition ChangeSymbol (newSymbol : string) (b : BinanceClient)
  : BinanceClient :=
  signalRestart (changeSymbolLocked newSymbol b).

(** What [conn.ReadMessage] returns. *)
Inductive Read :=
| ReadOk (message : string)
| ReadFail.

(** What the loop does that can be observed from outside. *)
Inductive Output :=
| Dialed (url : string)
| Slept (seconds : Z)
| Sent (u : PriceUpdate).

Section Decoding.

(** The JSON library, which the source only calls:
    [json.Unmarshal(message, &trade)] ([None] when it returns an error),
    whether [json.Number(s).Float64()] returns no error, and
    [json.Unmarshal([]byte(s), &price)] ([None] when it returns an error and
    leaves [price] alone). *)
Variable unmarshalTrade : string -> option BinanceTrade.
Variable numberIsFloat : string -> bool.
Variable unmarshalFloat : string -> option Q.

(** [var price float64; if ... err == nil { json.Unmarshal(..., &price) }] *)
Definition parsePrice (s : string) : Q :=
  if numberIsFloat s
  then match unmarshalFloat s with Some p => p | None => 0%Q end
  else 0%Q.

(** The body of the loop of [readMessages] for a message that was read:
    the update it sends, if any.  In both cases the loop goes on. *)
Definition handleMessage (message : string) : option PriceUpdate :=
  match unmarshalTrade message with
  | None => None
  | Some trade =>
      let price := parsePrice (bt_Price trade) in
      if Qltb 0 price
      then Some {| pu_Price := price; pu_Time := UnixMilli (bt_Time trade) |}
      else None
  end.

(** [BinanceClient.readMessages] on the reads the connection will deliver:
    the updates sent, the reads left over, and whether the function has
    returned ([false]: it is waiting in [ReadMessage]). *)
Fixpoint readMessages (reads : list Read)
  : list PriceUpdate * list Read * bool :=
  match reads with
  | [] => ([], [], false)
  | ReadFail :: rest => ([], rest, true)
  | ReadOk message :: rest =>
      let '(sent, rest', returned) := readMessages rest in
      (match handleMessage message with
       | Some u => u :: sent
       | None => sent
       end, rest', returned)
  end.

(** Where [Run] is: at the top of the loop, inside [Dial] on the address
    computed from the symbol read at the top, or inside [readMessages] on
    [c]. *)
Inductive Loc :=
| AtTop
| AtDial (address : string)
| AtRead (c : Conn).

Record RunState := { client : BinanceClient; loc : Loc }.

(** What happens next: the loop reads the symbol and calls [Dial], the dial
    returns, a read returns, or another goroutine runs one of the two halves
    of [ChangeSymbol]. *)
Inductive Event :=
| EvLoop
| EvDial (r : option Conn)
| EvRead (r : Read)
| EvChangeLocked (newSymbol : string)
| EvSignal.

Definition url (sym : string) : string :=
  "wss://stream.binance.com:9443/ws/" ++ sym ++ "@trade".

(** [BinanceClient.Run], one event at a time; [None] when the event cannot
    happen where the loop is. *)
Definition step (st : RunState) (ev : Event)
  : option (RunState * list Output) :=
  let b := client st in
  match ev, loc st with
  | EvChangeLocked s, _ =>
      Some ({| client := changeSymbolLocked s b; loc := loc st |}, [])
  | EvSignal, _ =>
      Some ({| client := signalRestart b; loc := loc st |}, [])
  | EvLoop, AtTop =>
      Some ({| client := b; loc := AtDial (url (symbol b)) |},
            [Dialed (url (symbol b))])
  | EvDial None, AtDial _ =>
      Some ({| client := b; loc := AtTop |}, [Slept 5])
  | EvDial (Some c), AtDial _ =>
      Some ({| client := mkClient (symbol b) (Some c) (closed b) (restart b);
               loc := AtRead c |}, [])
  | EvRead (ReadOk message), AtRead c =>
      Some (st, match handleMessage message with
                | Some u => [Sent u]
                | None => []
                end)
  | EvRead ReadFail, AtRead c =>
      let b := mkClient (symbol b) (conn b) ({[c]} ∪ closed b) (restart b) in
      if restart b
      then Some ({| client := mkClient (symbol b) (conn b) (closed b) false;
                    loc := AtTop |}, [])
      else Some ({| client := b; loc := AtTop |}, [Slept 2])
  | _, _ => None
  end.

(** A run of events from [st]; the outputs are concatenated. *)
Fixpoint run (st : RunState) (evs : list Event)
  : option (RunState * list Output) :=
  match evs with
  | [] => Some (st, [])
  | ev :: evs' =>
      '(st', out) ← step st ev;
      '(st'', out') ← run st' evs';
      Some (st'', out ++ out')
  end.

End Decoding.

(** *** Vocabulary of the properties *)

(** [n] times round the loop with a dial that fails. *)
Fixpoint dialFailures (n : nat) : list Event :=
  match n with
  | O => []
  | S n' => EvLoop :: EvDial None :: dialFailures n'
  end.

(** What [n] such rounds put out for the symbol [sym]. *)
Fixpoint retries (sym : string) (n : nat) : list Output :=
  match n with
  | O => []
  | S n' => Dialed (url sym) :: Slept 5 :: retries sym n'
  end.

(** The messages read before the first read that fails. *)
Fixpoint untilFail (reads : list Read) : list string :=
  match reads with
  | ReadOk message :: rest => message :: untilFail rest
  | _ => []
  end.

(** The reads after the first one that fails. *)
Fixpoint afterFail (reads : list Read) : list Read :=
  match reads with
  | [] => []
  | ReadFail :: rest => rest
  | ReadOk _ :: rest => afterFail rest
  end.

(** Whether one of the reads fails. *)
Definition anyFail (reads : list Read) : bool :=
  existsb (fun r => match r with ReadFail => true | ReadOk _ => false end)
          reads.

End Feed.

(** ** Price hub ([handlers.go]) *)

Module Hub.
Import Num.

Definition Conn := Feed.Conn.

(** Modelled from the spec: the statistics engine behind [C.add_price],
    [C.reset_processor] and the three getters ([process.cpp], which is not
    part of the sources read here).  The spec treats it as a black box with
    [add_sample] and [reset]; its state is kept as the samples added since
    the last reset, and the reset state is the empty list. *)
Definition Processor := list Q.
Definition add_price (price : Q) (p : Processor) : Processor := p ++ [price].
Definition reset_processor (p : Processor) : Processor := [].

(** [Server], together with what its methods reach: the processor, the
    connections [Close] was called on, and the [removeClient] goroutines that
    [broadcast] has started and that have not run yet. *)
Record Server := mkServer {
  currentPrice : Q;
  clients : gset Conn;
  processor : Processor;
  closed : gset Conn;
  removals : list Conn
}.

Definition NewServer : Server := mkServer 0 ∅ [] ∅ [].

(** [Server.removeClient] *)
Definition removeClient (c : Conn) (s : Server) : Server :=
  mkServer (currentPrice s) (clients s ∖ {[c]}) (processor s) (closed s)
           (removals s).

(** The body of the loop of [broadcast] for one client: the write is
    attempted; when it fails the connection is closed and a [removeClient]
    goroutine is started. *)
Definition deliver (writeFails : Conn -> bool) (s : Server) (c : Conn)
  : Server :=
  if writeFails c
  then mkServer (currentPrice s) (clients s) (processor s)
                ({[c]} ∪ closed s) (removals s ++ [c])
  else s.

(** [Server.broadcast]: the clients in the order of the range, which is the
    list of write attempts, and the server afterwards.  The read lock is
    held throughout, so no [removeClient] runs in between. *)
Definition broadcast (writeFails : Conn -> bool) (s : Server)
  : list Conn * Server :=
  let order := elements (clients s) in
  (order, fold_left (deliver writeFails) order s).

(** [Server.UpdatePrice] *)
Definition UpdatePrice (writeFails : Conn -> bool) (price : Q) (s : Server)
  : list Conn * Server :=
  let s := mkServer price (clients s) (add_price price (processor s))
                    (closed s) (removals s) in
  broadcast writeFails s.

Definition GetPrice (s : Server) : Q := currentPrice s.

(** [Server.ResetPrice] *)
Definition ResetPrice (s : Server) : Server :=
  mkServer 0 (clients s) (processor s) (closed s) (removals s).

Definition ResetProcessor (s : Server) : Server :=
  mkServer (currentPrice s) (clients s) (reset_processor (processor s))
           (closed s) (removals s).

(** The registration done by [HandleWebSocket]. *)
Definition addClient (c : Conn) (s : Server) : Server :=
  mkServer (currentPrice s) ({[c]} ∪ clients s) (processor s) (closed s)
           (removals s).

(** The scheduler runs the oldest started [removeClient] goroutine. *)
Definition runRemoval (s : Server) : Server :=
  match removals s with
  | [] => s
  | c :: rest =>
      removeClient c (mkServer (currentPrice s) (clients s) (processor s)
                               (closed s) rest)
  end.

(** It runs all of them. *)
Fixpoint runRemovals (n : nat) (s : Server) : Server :=
  match n with
  | O => s
  | S n' => runRemovals n' (runRemoval s)
  end.

Definition drain (s : Server) : Server :=
  runRemovals (length (removals s)) s.

(** *** Vocabulary of the properties *)

(** The clients whose write failed, in the order of the attempts. *)
Definition failed (writeFails : Conn -> bool) (order : list Conn) : list Conn :=
  List.filter writeFails order.

(** Two clients; the writes to client 1 fail. *)
Definition twoClients : Server := addClient 1%nat (addClient 2%nat NewServer).
Definition firstFails (c : Conn) : bool := Nat.eqb c 1.

(** *** The socket handler *)

(** The loop at the end of [HandleWebSocket]: it reads until a read fails,
    then removes the client and returns; the flag tells whether it has
    returned ([false]: it is waiting in [ReadMessage]). *)
Fixpoint wsReadLoop (c : Conn) (reads : list Feed.Read) (s : Server)
  : Server * bool :=
  match reads with
  | [] => (s, false)
  | Feed.ReadFail :: _ => (removeClient c s, true)
  | Feed.ReadOk _ :: rest => wsReadLoop c rest s
  end.

(** [Server.HandleWebSocket]: [upgraded] is the connection the upgrade
    gives, [None] when the upgrade fails. *)
Definition HandleWebSocket (upgraded : option Conn) (reads : list Feed.Read)
    (s : Server) : Server * bool :=
  match upgraded with
  | None => (s, true)
  | Some conn => wsReadLoop conn reads (addClient conn s)
  end.

(** [Server.HandlePrice]: the number under the key [price]. *)
Definition HandlePrice (s : Server) : Q := GetPrice s.

(** The loop of [main] that takes the updates off the channel: one
    [UpdatePrice] per price, in order. *)
Definition updatePrices (writeFails : Conn -> bool) (prices : list Q)
    (s : Server) : Server :=
  fold_left (fun s price => (UpdatePrice writeFails price s).2) prices s.

End Hub.

(** ** Symbol swap ([main.go]: the [/api/symbol] handler) *)

Module Swap.
Import Num.

Record AppState := mkApp { symbol : string; coinName : string }.

Definition GetSymbol (a : AppState) : string := symbol a.
Definition AppState_GetCoinName (a : AppState) : string := coinName a.

(** [AppState.SetSymbol]: both fields inside one critical section. *)
Definition SetSymbol (sym name : string) (a : AppState) : AppState :=
  mkApp sym name.

(** The coin catalog, as the [/api/coins] handler lists it. *)
Definition coins : list (string * string) :=
  [("btcusdt", "Bitcoin (BTC)");
   ("ethusdt", "Ethereum (ETH)");
   ("solusdt", "Solana (SOL)");
   ("bnbusdt", "Binance Coin (BNB)");
   ("xrpusdt", "Ripple (XRP)");
   ("dogeusdt", "Dogecoin (DOGE)")].

Definition inCatalog (sym : string) : bool :=
  existsb (fun c => String.eqb (fst c) sym) coins.

(** Modelled from the spec: the package function [GetCoinName], which the
    handler calls and whose file is not part of the sources read here.  It
    gives the display name of a symbol of the catalog; for any other symbol
    it gives the symbol back, which is what the handler's test
    [newName == req.Symbol] relies on. *)
Definition GetCoinName (sym : string) : string :=
  match find (fun c => String.eqb (fst c) sym) coins with
  | Some c => snd c
  | None => sym
  end.

(** Everything the handler can reach. *)
Record World := mkWorld {
  appState : AppState;
  server : Hub.Server;
  binanceClient : Feed.BinanceClient
}.

(** The calls of the handler that change something. *)
Inductive Call :=
| CallSetSymbol (sym name : string)
| CallResetProcessor
| CallResetPrice
| CallChangeSymbol (sym : string).

(** The effect of a call. *)
Definition exec (c : Call) (w : World) : World :=
  match c with
  | CallSetSymbol sym name =>
      mkWorld (SetSymbol sym name (appState w)) (server w) (binanceClient w)
  | CallResetProcessor =>
      mkWorld (appState w) (Hub.ResetProcessor (server w)) (binanceClient w)
  | CallResetPrice =>
      mkWorld (appState w) (Hub.ResetPrice (server w)) (binanceClient w)
  | CallChangeSymbol sym =>
      mkWorld (appState w) (server w)
              (Feed.ChangeSymbol sym (binanceClient w))
  end.

(** A handler is a state transformer that also records each call it makes,
    with the world the call was made on. *)
Definition Prog (A : Type) : Type := World -> A * World * list (Call * World).

#[export] Instance Prog_ret : MRet Prog := fun A a w => (a, w, []).

#[export] Instance Prog_bind : MBind Prog := fun A B k p w =>
  let '(a, w1, t1) := p w in
  let '(b, w2, t2) := k a w1 in
  (b, w2, t1 ++ t2).

Definition call (c : Call) : Prog unit :=
  fun w => (tt, exec c w, [(c, w)]).

Definition ask : Prog World := fun w => (w, w, []).

Record Request := {
  method : string;
  body : option string  (* the decoded [req.Symbol]; [None]: Decode failed *)
}.

Inductive Response :=
| HttpError (message : string) (status : Z)
| Json (sym name : string).

Definition StatusBadRequest : Z := 400.

(** The handler of [/api/symbol]. *)
Definition handleSymbol (r : Request) : Prog Response :=
  if String.eqb (method r) "POST" then
    match body r with
    | None => mret (HttpError "Invalid request" StatusBadRequest)
    | Some reqSymbol =>
        let newName := GetCoinName reqSymbol in
        if String.eqb newName reqSymbol then
          mret (HttpError "Unknown symbol" StatusBadRequest)
        else
          (* Update state *)
          call (CallSetSymbol reqSymbol newName) ;;
          (* Reset processor and price *)
          call CallResetProcessor ;;
          call CallResetPrice ;;
          (* Change Binance connection *)
          call (CallChangeSymbol reqSymbol) ;;
          mret (Json reqSymbol newName)
    end
  else
    w ← ask;
    mret (Json (GetSymbol (appState w)) (AppState_GetCoinName (appState w))).

(** *** Vocabulary of the properties *)

(** A server that tracks Bitcoin at 100, with one client and a feed
    connection open. *)
Definition tracking : World :=
  mkWorld (mkApp "btcusdt" "Bitcoin (BTC)")
          (Hub.mkServer 100 {[7%nat]} [99%Q; 100%Q] ∅ [])
          (Feed.mkClient "btcusdt" (Some 3%nat) ∅ false).

Definition post (sym : string) : Request :=
  {| method := "POST"; body := Some sym |}.

(** *** The server as [main] sets it up *)

(** The state [main] builds for the selected symbol. *)
Definition startWorld (selectedSymbol : string) : World :=
  mkWorld (mkApp selectedSymbol (GetCoinName selectedSymbol))
          Hub.NewServer
          (Feed.NewBinanceClient selectedSymbol).

(** Requests on [/api/symbol], one after the other. *)
Definition serve (w : World) (rs : list Request) : World :=
  fold_left (fun w r => (handleSymbol r w).1.2) rs w.

Definition get : Request := {| method := "GET"; body := None |}.

(** What holds between two requests: the name is the one [GetCoinName]
    gives for the symbol, and the feed client has the symbol too. *)
Definition consistent (w : World) : Prop :=
  coinName (appState w) = GetCoinName (symbol (appState w))
  /\ Feed.symbol (binanceClient w) = symbol (appState w).

End Swap.

(** ** The pipeline: feed, channel, hub and handlers in one process *)

Module Pipeline.
Import Num.

Section Decoding.

Variable unmarshalTrade : string -> option Feed.BinanceTrade.
Variable numberIsFloat : string -> bool.
Variable unmarshalFloat : string -> option Q.

(** [make(chan PriceUpdate, 100)] *)
Definition capacity : nat := 100.

(** The process: what the handlers reach, where [Run] is, and the updates
    waiting in [priceChan]. *)
Record State := mkState {
  world : Swap.World;
  loc : Feed.Loc;
  priceChan : list Feed.PriceUpdate
}.

(** What one of the goroutines does next: a step of the feed client ([Run],
    or a half of [ChangeSymbol]); the loop of [main] takes an update off the
    channel and calls [UpdatePrice]; a handler of [/api/symbol] makes one of
    its calls; a socket is registered or its handler removes it; a started
    [removeClient] runs. *)
Inductive Step :=
| FeedStep (ev : Feed.Event)
| Consume (writeFails : Hub.Conn -> bool)
| HandlerCall (c : Swap.Call)
| SocketOpen (c : Hub.Conn)
| SocketClosed (c : Hub.Conn)
| Removal.

(** The updates among the outputs of a feed step. *)
Definition sends (out : list Feed.Output) : list Feed.PriceUpdate :=
  omap (fun o => match o with Feed.Sent u => Some u | _ => None end) out.

Definition withServer (f : Hub.Server -> Hub.Server) (w : Swap.World)
  : Swap.World :=
  Swap.mkWorld (Swap.appState w) (f (Swap.server w)) (Swap.binanceClient w).

(** One step; [None] when it cannot be taken: the feed event does not fit,
    the send would block on a full channel, or the channel is empty. *)
Definition step (st : State) (s : Step) : option State :=
  match s with
  | FeedStep ev =>
      '(rs, out) ← Feed.step unmarshalTrade numberIsFloat unmarshalFloat
                     {| Feed.client := Swap.binanceClient (world st);
                        Feed.loc := loc st |} ev;
      if (capacity <? length (priceChan st ++ sends out))%nat then None
      else Some (mkState (Swap.mkWorld (Swap.appState (world st))
                                       (Swap.server (world st))
                                       (Feed.client rs))
                         (Feed.loc rs)
                         (priceChan st ++ sends out))
  | Consume writeFails =>
      match priceChan st with
      | [] => None
      | update :: rest =>
          Some (mkState
                  (withServer
                     (fun s => (Hub.UpdatePrice writeFails
                                  (Feed.pu_Price update) s).2)
                     (world st))
                  (loc st) rest)
      end
  | HandlerCall c => Some (mkState (Swap.exec c (world st)) (loc st)
                                   (priceChan st))
  | SocketOpen c => Some (mkState (withServer (Hub.addClient c) (world st))
                                  (loc st) (priceChan st))
  | SocketClosed c =>
      Some (mkState (withServer (Hub.removeClient c) (world st))
                    (loc st) (priceChan st))
  | Removal => Some (mkState (withServer Hub.runRemoval (world st))
                             (loc st) (priceChan st))
  end.

Fixpoint steps (st : State) (ss : list Step) : option State :=
  match ss with
  | [] => Some st
  | s :: ss' => st' ← step st s; steps st' ss'
  end.

(** The process as [main] starts it. *)
Definition start (selectedSymbol : string) : State :=
  mkState (Swap.startWorld selectedSymbol) Feed.AtTop [].

(** Prices are sound: the stored price is not negative, and every sample
    of the processor and every update in the channel is above zero; the
    channel holds no more than its capacity. *)
Definition sound (st : State) : Prop :=
  (0 <= Hub.currentPrice (Swap.server (world st)))%Q
  /\ Forall (fun p => (0 < p)%Q) (Hub.processor (Swap.server (world st)))
  /\ Forall (fun u => (0 < Feed.pu_Price u)%Q) (priceChan st)
  /\ (length (priceChan st) <= capacity)%nat.

End Decoding.

(** The answers of the server to one poll of the dashboard, with the
    server in the state [w]: [/api/symbol] gives the held symbol and name,
    [/api/price] the stored price, and [/api/stats] the three numbers of
    the processor, which are taken as given. *)
Definition serverPoll (w : Swap.World) (stats : Dashboard.StatsResponse)
  : Dashboard.PollEnv :=
  {| Dashboard.symbolStage :=
       Dashboard.GetOk
         (Some {| Dashboard.sr_Symbol := Swap.GetSymbol (Swap.appState w);
                  Dashboard.sr_Name :=
                    Swap.AppState_GetCoinName (Swap.appState w) |});
     Dashboard.priceStage :=
       Dashboard.GetOk
         (Some {| Dashboard.pr_Price := Hub.HandlePrice (Swap.server w) |});
     Dashboard.statsStage := Dashboard.GetOk (Some stats) |}.

End Pipeline.

(** ** The earlier dashboard ([main.go], second program) *)

Module Dashboard1.
Import Num Dashboard.

(** The types, [fetchData], the [dataMsg] and [coinsMsg] cases and
    [renderSparkline] are those of the later dashboard, word for word; the
    fields [dbHistory] and [historyScroll] of [model] are not there, and
    [viewMode] has the first two values only, so that [historyView] stands
    for any other value of the underlying [int]. *)

Definition initialModel : model :=
  mkModel dashboardView zeroData [] [] false [] 0 false 0.

Definition Init : list Cmd := [fetchDataCmd; tick].

Definition updateKey (m : model) (key : string)
  : option (model * list Cmd) :=
  match mode m with
  | dashboardView =>
      if key_in key ["ctrl+c"; "q"] then
        Some (set_quitting true m, [Quit])
      else if key_in key ["c"] then
        Some (set_coinCursor 0 (set_mode coinSelectView m), [fetchCoins])
      else Some (m, [])
  | coinSelectView =>
      if key_in key ["ctrl+c"; "q"; "esc"] then
        Some (set_mode dashboardView m, [])
      else if key_in key ["up"; "k"] then
        Some (if 0 <? coinCursor m
              then set_coinCursor (coinCursor m - 1) m else m, [])
      else if key_in key ["down"; "j"] then
        Some (if coinCursor m <? Z.of_nat (length (coins m)) - 1
              then set_coinCursor (coinCursor m + 1) m else m, [])
      else if key_in key ["enter"; " "] then
        if 0 <? Z.of_nat (length (coins m)) then
          let m := set_switching true m in
          selectedCoin ← index (coins m) (coinCursor m);
          Some (m, [changeSymbol (ci_Symbol selectedCoin)])
        else Some (m, [])
      else Some (m, [])
  | historyView => Some (m, [])
  end.

(** [model.Update] of the earlier dashboard. *)
Definition Update (m : model) (msg : Msg) : option (model * list Cmd) :=
  match msg with
  | KeyMsg key => updateKey m key
  | tickMsg =>
      if viewMode_eqb (mode m) dashboardView && negb (switching m)
      then Some (m, [fetchDataCmd; tick])
      else Some (m, [tick])
  | dataMsg d => Some (updateData m d, [])
  | coinsMsg cs =>
      let m := set_coins cs m in
      Some (match findCoin (Symbol (data m)) (coins m) 0 with
            | Some i => set_coinCursor i m
            | None => m
            end, [])
  | symbolChangedMsg =>
      Some (set_history [] (set_mode dashboardView (set_switching false m)),
            [fetchDataCmd])
  | historyMsg _ | otherMsg => Some (m, [])
  end.

End Dashboard1.

(** * Properties *)

(** ** Numbers *)

Module NumFacts.
Import Num.

Lemma Qltb_lt (x y : Q) : Qltb x y = true <-> (x < y)%Q.
Proof.
  unfold Qltb. rewrite negb_true_iff, <- not_true_iff_false, Qle_bool_iff.
  split; [apply Qnot_le_lt | apply Qlt_not_le].
Qed.

Lemma Qltb_ge (x y : Q) : Qltb x y = false <-> (y <= x)%Q.
Proof.
  unfold Qltb. rewrite negb_false_iff. apply Qle_bool_iff.
Qed.

Lemma Qltb_spec (x y : Q) : reflect (x < y)%Q (Qltb x y).
Proof.
  destruct (Qltb x y) eqn:E; constructor.
  - by apply Qltb_lt.
  - apply Qle_not_lt. by apply Qltb_ge.
Qed.

(** On a value between [0] and [n], [int(x)] is the floor of [x] and lies
    between [0] and [n]. *)
Lemma trunc_range (x : Q) (n : Z) :
  (0 <= x)%Q -> (x <= inject_Z n)%Q -> trunc x = Qfloor x /\ 0 <= trunc x <= n.
Proof.
  destruct x as [a d]. unfold trunc, Qle, Qfloor. simpl. intros H0 Hn.
  assert (Ha : 0 <= a) by lia.
  rewrite Z.quot_div_nonneg by lia. split; [done|split].
  - apply Z.div_pos; lia.
  - apply Z.div_le_upper_bound; lia.
Qed.

End NumFacts.

(** ** Dashboard core *)

Module DashboardFacts.
Import Num NumFacts Dashboard.

(** [fetchData] starts from the zero value and never writes the fields
    that [Update] computes. *)
Lemma fetchData_fresh (env : PollEnv) :
  Change (fst (fetchData env)) = 0%Q
  /\ ChangePercent (fst (fetchData env)) = 0%Q
  /\ PrevPrice (fst (fetchData env)) = 0%Q.
Proof.
  unfold fetchData.
  destruct (symbolStage env) as [|[?|]]; [done| |];
    (destruct (priceStage env) as [|[?|]]; [done| |]);
    (destruct (statsStage env) as [|[?|]]; done).
Qed.

(** What [updateData] leaves in the held data: the poll result, with the
    three computed fields written over it. *)
Lemma updateData_data (m : model) (d : DashboardData) :
  data (updateData m d)
  = set_PrevPrice (Price (data m))
      (if Qltb 0 (Price (data m)) && Qltb 0 (Price d)
          && String.eqb (Symbol (data m)) (Symbol d)
       then set_Change (Price d - Price (data m))%Q
              (((Price d - Price (data m)) / Price (data m)) * 100)%Q d
       else d).
Proof.
  unfold updateData.
  destruct (negb (String.eqb (Symbol (data m)) "")
            && negb (String.eqb (Symbol (data m)) (Symbol d)));
    cbn [data set_history];
    destruct (Qltb 0 (Price (data m)) && Qltb 0 (Price d)
              && String.eqb (Symbol (data m)) (Symbol d));
    cbn [Price set_PrevPrice set_Change set_data data history];
    destruct (Qltb 0 (Price d)); cbn [data set_history set_data history];
    repeat (match goal with |- context [if ?b then _ else _] => destruct b end);
    reflexivity.
Qed.

(** Apart from the three computed fields, the held data is the result. *)
Lemma updateData_result (m : model) (d : DashboardData) :
  set_Change (Change d) (ChangePercent d)
    (set_PrevPrice (PrevPrice d) (data (updateData m d))) = d.
Proof.
  rewrite updateData_data.
  destruct (Qltb 0 (Price (data m)) && Qltb 0 (Price d)
            && String.eqb (Symbol (data m)) (Symbol d));
    by destruct d.
Qed.

Lemma comparable_bool (prev new : DashboardData) :
  Qltb 0 (Price prev) && Qltb 0 (Price new)
    && String.eqb (Symbol prev) (Symbol new) = true
  <-> comparable prev new.
Proof.
  unfold comparable.
  rewrite !andb_true_iff, !Qltb_lt, String.eqb_eq. tauto.
Qed.

(** C8.  For the held data [data m] and the next poll result [d] (any result
    [fetchData] can produce), after [Update]: either both prices are
    strictly positive and the symbol is the same in the two readings, and
    then [Change] is the new price minus the previous one and
    [ChangePercent] is that change divided by the previous price, times 100;
    or one of the three conditions fails, and then [Change] and
    [ChangePercent] are zero whatever the two prices are.  With previous
    price 100 and new price 105 under one symbol this gives 5 and 5. *)
Theorem change_computation (m : model) (env : PollEnv) :
  let d := fst (fetchData env) in
  let d' := data (updateData m d) in
  Update m (dataMsg d) = Some (updateData m d, [])
  /\ ((comparable (data m) d
       /\ Change d' = (Price d - Price (data m))%Q
       /\ ChangePercent d' = ((Change d' / Price (data m)) * 100)%Q)
      \/ (~ comparable (data m) d
          /\ Change d' = 0%Q /\ ChangePercent d' = 0%Q))
  /\ (Price (data m) == 100 -> Price d == 105 -> Symbol (data m) = Symbol d ->
      Change d' == 5 /\ ChangePercent d' == 5)%Q.
Proof.
  intros d d'. split; [reflexivity|].
  destruct (fetchData_fresh env) as (Hc & Hp & _). fold d in Hc, Hp.
  assert (Hd' : d' = data (updateData m d)) by reflexivity.
  rewrite updateData_data in Hd'.
  destruct (Qltb 0 (Price (data m)) && Qltb 0 (Price d)
            && String.eqb (Symbol (data m)) (Symbol d)) eqn:E.
  - apply comparable_bool in E. rewrite Hd'. cbn. split.
    + left. done.
    + intros H1 H2 _. rewrite H1, H2. split; reflexivity.
  - assert (Hn : ~ comparable (data m) d).
    { intros H. apply comparable_bool in H. congruence. }
    rewrite Hd'. cbn. split.
    + right. done.
    + intros H1 H2 H3. exfalso. apply Hn. unfold comparable.
      rewrite H1, H2. done.
Qed.

(** The example of the claim, run on the code. *)
Example change_100_105 :
  let m := set_data (set_Price 100 (set_SymbolName "btcusdt" "Bitcoin (BTC)"
                                      zeroData)) initialModel in
  let env := {| symbolStage := GetOk (Some {| sr_Symbol := "btcusdt";
                                              sr_Name := "Bitcoin (BTC)" |});
                priceStage := GetOk (Some {| pr_Price := 105 |});
                statsStage := GetOk None |} in
  let d' := data (updateData m (fst (fetchData env))) in
  Qred (Change d') = 5%Q /\ Qred (ChangePercent d') = 5%Q
  /\ PrevPrice d' = 100%Q.
Proof. vm_compute. done. Qed.

(** With another symbol in between, the change is zero. *)
Example change_other_symbol :
  let m := set_data (set_Price 100 (set_SymbolName "btcusdt" "Bitcoin (BTC)"
                                      zeroData)) initialModel in
  let env := {| symbolStage := GetOk (Some {| sr_Symbol := "ethusdt";
                                              sr_Name := "Ethereum (ETH)" |});
                priceStage := GetOk (Some {| pr_Price := 105 |});
                statsStage := GetOk None |} in
  let d' := data (updateData m (fst (fetchData env))) in
  Change d' = 0%Q /\ ChangePercent d' = 0%Q.
Proof. vm_compute. done. Qed.

(** *** The history ring *)

Lemma kept_spec (m : model) (d : DashboardData) :
  (symbolChanged m d /\ kept m d = [])
  \/ (~ symbolChanged m d /\ kept m d = history m).
Proof.
  unfold kept, symbolChanged.
  destruct (String.eqb_spec (Symbol (data m)) "") as [E1|E1];
    destruct (String.eqb_spec (Symbol (data m)) (Symbol d)) as [E2|E2];
    cbn; tauto.
Qed.

Lemma updateData_history (m : model) (d : DashboardData) :
  history (updateData m d)
  = if Qltb 0 (Price d)
    then if (20 <? Z.of_nat (length (kept m d ++ [Price d])))
         then tail (kept m d ++ [Price d]) else kept m d ++ [Price d]
    else kept m d.
Proof.
  unfold updateData, kept.
  destruct (negb (String.eqb (Symbol (data m)) "")
            && negb (String.eqb (Symbol (data m)) (Symbol d)));
    cbn [data set_history history];
    destruct (Qltb 0 (Price (data m)) && Qltb 0 (Price d)
              && String.eqb (Symbol (data m)) (Symbol d));
    cbn [Price set_PrevPrice set_Change set_data data history];
    destruct (Qltb 0 (Price d)); cbn [data set_history set_data history];
    try reflexivity;
    match goal with |- context [if ?b then _ else _] => destruct b end;
    reflexivity.
Qed.

Lemma ring_ok_nil : ring_ok [].
Proof. split; [cbn; lia | constructor]. Qed.

Lemma ring_ok_append (h : list Q) (p : Q) :
  ring_ok h -> (0 < p)%Q ->
  ring_ok (if (20 <? Z.of_nat (length (h ++ [p])))
           then tail (h ++ [p]) else h ++ [p]).
Proof.
  intros [Hlen Hpos] Hp.
  assert (Hall : Forall (fun p => (0 < p)%Q) (h ++ [p])).
  { apply Forall_app. split; [done | by constructor]. }
  destruct (20 <? Z.of_nat (length (h ++ [p]))) eqn:E.
  - assert (Hl : (length (h ++ [p]) <= 21)%nat).
    { rewrite length_app. cbn. lia. }
    destruct (h ++ [p]) as [|q l]; [apply ring_ok_nil|].
    cbn in *. split; [lia | by inversion Hall].
  - apply Z.ltb_ge in E. split; [lia | done].
Qed.

(** Every case of [Update] other than [dataMsg] and [symbolChangedMsg]
    returns the history it was given. *)
Lemma updateKey_history (m m' : model) (key : string) (cmds : list Cmd) :
  updateKey m key = Some (m', cmds) -> history m' = history m.
Proof.
  unfold updateKey. intros H.
  destruct (mode m);
    repeat (match type of H with
            | context [if ?b then _ else _] => destruct b
            | context [index ?l ?i] => destruct (index l i)
            end; cbn in H);
    try discriminate; by inversion H.
Qed.

(** C10, as stated, fails: a poll result with a non-positive price does not
    always leave the history unchanged.  The result of a poll against a server
    that is down has price 0 and the empty symbol; the held symbol is
    [btcusdt], so the [dataMsg] case clears the history. *)
Lemma nonpositive_price_clears_history :
  let d := fst (fetchData serverDown) in
  ring_ok (history showingBtc)
  /\ (Price d <= 0)%Q
  /\ history showingBtc = [100%Q]
  /\ Update showingBtc (dataMsg d) = Some (updateData showingBtc d, [])
  /\ history (updateData showingBtc d) = []
  /\ history (updateData showingBtc d) <> history showingBtc.
Proof.
  cbv zeta. repeat split; try reflexivity; try discriminate.
  - cbn. lia.
  - repeat constructor.
Qed.

(** C10, amended.  If the history has at most 20 elements, all strictly
    positive, then it has after any step of [Update].  A poll result appends
    to the history it finds, which is the held history, or the empty one when
    the result carries another symbol than the held, non-empty one.  With a
    non-positive price nothing is appended, so the history after the step is
    that found history (unchanged unless the symbol changed).  With a
    positive price the price is appended, and when that would give 21
    elements the oldest one, and only it, is dropped. *)
Theorem history_ring (m : model) (msg : Msg) (Hok : ring_ok (history m)) :
  (forall m' cmds, Update m msg = Some (m', cmds) -> ring_ok (history m'))
  /\ (forall d, exists m',
        Update m (dataMsg d) = Some (m', [])
        /\ ((symbolChanged m d /\ kept m d = [])
            \/ (~ symbolChanged m d /\ kept m d = history m))
        /\ ((Price d <= 0)%Q -> history m' = kept m d)
        /\ ((0 < Price d)%Q -> (length (kept m d) < 20)%nat ->
            history m' = kept m d ++ [Price d])
        /\ ((0 < Price d)%Q -> length (kept m d) = 20%nat ->
            history m' = tail (kept m d) ++ [Price d])).
Proof.
  assert (Hkept : forall d, ring_ok (kept m d)).
  { intros d. destruct (kept_spec m d) as [[_ ->]|[_ ->]];
      [apply ring_ok_nil | done]. }
  split.
  - intros m' cmds H. destruct msg; cbn in H.
    + by rewrite (updateKey_history _ _ _ _ H).
    + destruct (viewMode_eqb (mode m) dashboardView && negb (switching m));
        inversion H; by subst.
    + inversion H; subst. rewrite updateData_history.
      destruct (Qltb_spec 0 (Price d)) as [Hp|Hp]; [|apply Hkept].
      by apply ring_ok_append.
    + inversion H; subst.
      by destruct (findCoin _ _ _).
    + inversion H; by subst.
    + inversion H; subst. apply ring_ok_nil.
    + inversion H; by subst.
  - intros d. exists (updateData m d). split; [reflexivity|].
    split; [apply kept_spec|].
    rewrite updateData_history. destruct (Hkept d) as [Hlen _].
    rewrite length_app. cbn [length].
    split; [|split].
    + intros Hp. apply Qltb_ge in Hp. by rewrite Hp.
    + intros Hp Hlt. apply Qltb_lt in Hp. rewrite Hp.
      destruct (Z.ltb_spec 20 (Z.of_nat (length (kept m d) + 1))); [lia|done].
    + intros Hp Heq. apply Qltb_lt in Hp. rewrite Hp.
      destruct (Z.ltb_spec 20 (Z.of_nat (length (kept m d) + 1))); [|lia].
      destruct (kept m d); [discriminate|reflexivity].
Qed.

Lemma history_ring_witness :
  ring_ok (history showingBtc)
  /\ (forall m' cmds,
        Update showingBtc symbolChangedMsg = Some (m', cmds) ->
        ring_ok (history m')).
Proof.
  assert (Hok : ring_ok (history showingBtc)).
  { split; [cbn; lia | repeat constructor]. }
  split; [exact Hok|].
  exact (proj1 (history_ring showingBtc symbolChangedMsg Hok)).
Defined.

(** *** Poll results that arrive late *)

(** C6, as stated, fails.  The dashboard shows Bitcoin; the swap to Ethereum
    completes ([symbolChangedMsg]) and the first poll after it arrives, so
    the held symbol is [ethusdt]; then a poll result issued before the swap
    arrives, with symbol [btcusdt].  It is not dropped: it becomes the held
    data and its price enters the history. *)
Lemma stale_poll_is_applied :
  let fresh := fst (fetchData (pollOf "ethusdt" "Ethereum (ETH)" 3000)) in
  let stale := fst (fetchData (pollOf "btcusdt" "Bitcoin (BTC)" 101)) in
  exists m2 m3,
    updates showingBtc [symbolChangedMsg; dataMsg fresh] = Some m2
    /\ Symbol (data m2) = "ethusdt"
    /\ Symbol stale <> Symbol (data m2)
    /\ Update m2 (dataMsg stale) = Some (m3, [])
    /\ m3 <> m2
    /\ Symbol (data m3) = "btcusdt"
    /\ Price (data m3) = 101%Q
    /\ history m3 = [101%Q].
Proof.
  cbv zeta. eexists _, _. split; [reflexivity|].
  repeat split; try reflexivity; discriminate.
Qed.

(** C6, amended.  [Update] applies every poll result: the held data becomes
    the result, with [PrevPrice] set to the price held before and the change
    fields computed by the change rule; nothing else of the model but the
    history changes.  The symbol of the result is compared with the held
    one only to clear the history: when the result carries another symbol
    than the held, non-empty one, the history after the step holds nothing
    but the price of the result (if that is positive). *)
Theorem poll_result_applied (m : model) (d : DashboardData) :
  exists m',
    Update m (dataMsg d) = Some (m', [])
    /\ set_Change (Change d) (ChangePercent d)
         (set_PrevPrice (PrevPrice d) (data m')) = d
    /\ PrevPrice (data m') = Price (data m)
    /\ set_history (history m) (set_data (data m) m') = m
    /\ (symbolChanged m d ->
        history m' = if Qltb 0 (Price d) then [Price d] else []).
Proof.
  exists (updateData m d). split; [reflexivity|].
  split; [|split; [|split]].
  - apply updateData_result.
  - rewrite updateData_data.
    by destruct (Qltb 0 (Price (data m)) && Qltb 0 (Price d)
                 && String.eqb (Symbol (data m)) (Symbol d)).
  - unfold updateData.
    repeat (match goal with |- context [if ?b then _ else _] => destruct b end;
            cbn [set_history set_data data history mode dbHistory quitting
                 coins coinCursor switching historyScroll]);
      by destruct m.
  - intros Hch. rewrite updateData_history.
    destruct (kept_spec m d) as [[_ ->]|[Hn _]]; [|done].
    by destruct (Qltb 0 (Price d)).
Qed.

(** *** Failed polls *)

Lemma updateData_fields (m : model) (d : DashboardData) :
  let d' := data (updateData m d) in
  Symbol d' = Symbol d /\ CoinName d' = CoinName d /\ Price d' = Price d
  /\ High d' = High d /\ Low d' = Low d
  /\ MovingAverage d' = MovingAverage d
  /\ Connected d' = Connected d /\ Error d' = Error d
  /\ PrevPrice d' = Price (data m).
Proof.
  cbv zeta. rewrite updateData_data.
  by destruct (Qltb 0 (Price (data m)) && Qltb 0 (Price d)
               && String.eqb (Symbol (data m)) (Symbol d)).
Qed.

Lemma viewDashboard_error (m : model) :
  Error (data m) <> "" -> viewDashboard m = Some (errorScreen (Error (data m))).
Proof.
  intros H. unfold viewDashboard.
  by destruct (String.eqb_spec (Error (data m)) "").
Qed.

Lemma viewDashboard_no_error (m : model) (e : string) :
  Error (data m) = "" -> viewDashboard m <> Some (errorScreen e).
Proof.
  intros H. unfold viewDashboard. rewrite H. cbn [String.eqb negb].
  destruct (negb (Connected (data m))); [discriminate|].
  destruct (switching m); [discriminate|].
  destruct (renderSparkline m); cbn; discriminate.
Qed.

(** C7.  A poll issues its three requests in order and stops at the first
    one that fails: the requests issued are those up to the failing one, the
    fields the later stages would have filled keep their zero value, the
    error field is not empty and [Connected] is false.  Once [Update] has
    taken such a result, [viewDashboard] gives the error screen, which holds
    a header, the error text and a hint and nothing of the price, the
    statistics or the history.  When no request fails the error field is
    empty and [Connected] is true, so after [Update] the error screen is
    gone.  In both cases the held data after [Update] is the poll result,
    built from the zero value, in every field but [PrevPrice], [Change] and
    [ChangePercent], which [Update] computes. *)
Theorem failed_poll (env : PollEnv) (m : model) :
  let d := fst (fetchData env) in
  let m' := updateData m d in
  Update m (dataMsg d) = Some (m', [])
  /\ match firstFailure env with
     | Some k =>
         Error d <> "" /\ Connected d = false
         /\ snd (fetchData env) = take (S k) requests
         /\ match k with
            | O => set_Error "" d = zeroData
            | S O => Price d = 0%Q /\ MovingAverage d = 0%Q
                     /\ High d = 0%Q /\ Low d = 0%Q
            | _ => MovingAverage d = 0%Q /\ High d = 0%Q /\ Low d = 0%Q
            end
         /\ viewDashboard m' = Some (errorScreen (Error d))
     | None =>
         Error d = "" /\ Connected d = true
         /\ snd (fetchData env) = requests
         /\ forall e, viewDashboard m' <> Some (errorScreen e)
     end
  /\ set_Change (Change d) (ChangePercent d)
       (set_PrevPrice (PrevPrice d) (data m')) = d.
Proof.
  intros d m'. split; [reflexivity|].
  destruct (updateData_fields m d) as (_ & _ & _ & _ & _ & _ & _ & HE & _).
  fold m' in HE. split.
  - assert (Hview : Error d <> "" ->
                    viewDashboard m' = Some (errorScreen (Error d))).
    { intros H. rewrite <- HE. apply viewDashboard_error. by rewrite HE. }
    assert (Hnone : Error d = "" ->
                    forall e, viewDashboard m' <> Some (errorScreen e)).
    { intros H e. apply viewDashboard_no_error. by rewrite HE. }
    revert Hview Hnone. unfold d, firstFailure, fetchData.
    destruct (symbolStage env) as [|[?|]];
      destruct (priceStage env) as [|[?|]];
      destruct (statsStage env) as [|[?|]];
      cbn; intros Hview Hnone;
      repeat split; try done; try (by apply Hview); by apply Hnone.
  - apply updateData_result.
Qed.

(** *** The sparkline *)

(** The first loop leaves the least and the greatest of the values it has
    seen, the two starting values included. *)
Lemma minmax_fold (h : list Q) (a b : Q) :
  let r := fold_left minmaxStep h (a, b) in
  (fst r <= a)%Q /\ (b <= snd r)%Q
  /\ Forall (fun v => (fst r <= v)%Q /\ (v <= snd r)%Q) h
  /\ (fst r = a \/ In (fst r) h) /\ (snd r = b \/ In (snd r) h).
Proof.
  revert a b. induction h as [|v h IH]; intros a b; cbn [fold_left].
  - cbv zeta. cbn. repeat split; try apply Qle_refl; auto.
  - specialize (IH (fst (minmaxStep (a, b) v)) (snd (minmaxStep (a, b) v))).
    rewrite <- surjective_pairing in IH. cbv zeta in IH |- *.
    destruct IH as (Hlo & Hhi & Hall & Hmin & Hmax).
    set (r := fold_left minmaxStep h (minmaxStep (a, b) v)) in *.
    cbn [minmaxStep fst snd] in Hlo, Hhi, Hmin, Hmax.
    destruct (Qltb_spec v a) as [Hva|Hva];
      destruct (Qltb_spec b v) as [Hbv|Hbv];
      repeat split; try (constructor; [split|]); try done;
      try lra; cbn [In]; clearbody r; intuition congruence.
Qed.

Lemma minmax_spec (h : list Q) (h0 : Q) :
  In h0 h ->
  Forall (fun v => (fst (minmax h h0) <= v)%Q /\ (v <= snd (minmax h h0))%Q) h
  /\ In (fst (minmax h h0)) h /\ In (snd (minmax h h0)) h.
Proof.
  intros Hin. destruct (minmax_fold h h0 h0) as (_ & _ & Hall & Hmin & Hmax).
  cbv zeta in *. change (fold_left minmaxStep h (h0, h0)) with (minmax h h0) in *.
  split; [done|]. split; [destruct Hmin as [->|]|destruct Hmax as [->|]]; done.
Qed.

(** The divisor of the normalisation. *)
Lemma sparkRange_spec (min max : Q) :
  (min <= max)%Q ->
  ((min == max)%Q /\ sparkRange min max = 1%Q)
  \/ ((min < max)%Q /\ sparkRange min max = (max - min)%Q).
Proof.
  intros Hle. unfold sparkRange.
  destruct (Qeq_bool (max - min) 0) eqn:E.
  - apply Qeq_bool_iff in E. left. split; [lra|done].
  - apply Qeq_bool_neq in E. right. split; [|done].
    destruct (Qlt_le_dec min max) as [|Hge]; [done|].
    exfalso. apply E. lra.
Qed.

(** A value between the minimum and the maximum gets a level between 0 and
    7, the floor of its normalised position times 7; the clamp changes
    nothing. *)
Lemma sparkLevel_range (min max v : Q) :
  (min <= v)%Q -> (v <= max)%Q ->
  let rang := sparkRange min max in
  sparkLevel min rang v = Qfloor (((v - min) / rang) * 7)%Q
  /\ 0 <= sparkLevel min rang v <= 7.
Proof.
  intros Hlo Hhi rang.
  assert (Hr : (0 < rang)%Q /\ (v - min <= rang)%Q).
  { unfold rang. destruct (sparkRange_spec min max) as [[He ->]|[Hlt ->]];
      [lra | lra | lra]. }
  destruct Hr as [Hpos Hle].
  assert (Hq0 : (0 <= (v - min) / rang)%Q).
  { apply Qle_shift_div_l; [done | lra]. }
  assert (Hq1 : ((v - min) / rang <= 1)%Q).
  { apply Qle_shift_div_r; [done | lra]. }
  set (q := ((v - min) / rang)%Q) in *.
  destruct (trunc_range (q * 7)%Q 7) as [Hfl Hrg];
    [lra | change (inject_Z 7) with 7%Q; lra |].
  unfold sparkLevel. fold q.
  change (inject_Z (Z.of_nat (length chars) - 1)) with 7%Q.
  change (Z.of_nat (length chars)) with 8.
  destruct (Z.leb_spec 8 (trunc (q * 7)%Q)); [lia|]. by rewrite <- Hfl.
Qed.

(** The colour of a glyph depends on the sample before it. *)
Lemma sparkStyle_spec (h : list Q) (i : nat) (v : Q) :
  match i with
  | O => sparkStyle h i v = valueStyle
  | S j => forall p, h !! j = Some p ->
           ((p < v)%Q /\ sparkStyle h i v = upStyle)
           \/ ((v < p)%Q /\ sparkStyle h i v = downStyle)
           \/ ((p == v)%Q /\ sparkStyle h i v = valueStyle)
  end.
Proof.
  destruct i as [|j]; [reflexivity|].
  intros p Hp. unfold sparkStyle.
  replace (S j - 1)%nat with j by lia.
  rewrite (nth_lookup_Some _ _ _ _ Hp). cbn [Nat.ltb Nat.leb andb].
  destruct (Qltb_spec p v) as [H1|H1]; [by left|].
  destruct (Qltb_spec v p) as [H2|H2]; [right; by left|].
  right; right. split; [lra|done].
Qed.

Lemma sparkCell_spec (h : list Q) (min max v : Q) (i : nat) :
  (min <= v)%Q -> (v <= max)%Q ->
  let rang := sparkRange min max in
  let lvl := Qfloor (((v - min) / rang) * 7)%Q in
  0 <= lvl <= 7
  /\ exists glyph,
       chars !! Z.to_nat lvl = Some glyph
       /\ sparkCell h min rang i v = Some (Styled (sparkStyle h i v) glyph []).
Proof.
  intros Hlo Hhi rang lvl.
  destruct (sparkLevel_range min max v Hlo Hhi) as [Heq Hrg].
  fold rang in Heq, Hrg. fold lvl in Heq. rewrite Heq in Hrg.
  split; [done|].
  destruct (lookup_lt_is_Some_2 chars (Z.to_nat lvl)) as [glyph Hg].
  { change (length chars) with 8%nat. clearbody lvl. lia. }
  exists glyph. split; [done|].
  unfold sparkCell, index. rewrite Heq.
  destruct (Z.ltb_spec lvl 0); [lia|]. by rewrite Hg.
Qed.



(** *** History isolation and the end of a swap *)

Lemma updateData_history_incl (m : model) (d : DashboardData) (p : Q) :
  In p (history (updateData m d)) -> In p (kept m d) \/ p = Price d.
Proof.
  rewrite updateData_history.
  destruct (Qltb 0 (Price d)); [|by left].
  assert (Happ : In p (kept m d ++ [Price d]) -> In p (kept m d) \/ p = Price d).
  { rewrite in_app_iff. cbn. intuition. }
  destruct (20 <? Z.of_nat (length (kept m d ++ [Price d]))); [|done].
  intros H. apply Happ. destruct (kept m d ++ [Price d]); [done | by right].
Qed.

Lemma polls_same_symbol (sym : string) (ds : list DashboardData) (m : model)
    (prices : list Q) :
  Symbol (data m) = sym ->
  Forall (fun d => Symbol d = sym) ds ->
  (forall p, In p (history m) -> In p prices) ->
  forall p, In p (history (polls m ds)) -> In p (prices ++ map Price ds).
Proof.
  revert m prices.
  induction ds as [|d ds IH]; intros m prices Hm Hds Hh p Hp; cbn in *.
  - rewrite app_nil_r. by apply Hh.
  - inversion Hds as [|? ? Hd Hds']; subst.
    assert (Hin : In p ((prices ++ [Price d]) ++ map Price ds)).
    { apply (IH (updateData m d)); try done.
      - by destruct (updateData_fields m d) as (-> & _).
      - intros q Hq. apply in_app_iff.
        apply updateData_history_incl in Hq as [Hq| ->]; [|right; by left].
        left. apply Hh. unfold kept in Hq.
        by destruct (negb (String.eqb (Symbol (data m)) "")
                     && negb (String.eqb (Symbol (data m)) (Symbol d))). }
    by rewrite <- app_assoc in Hin.
Qed.

(** X1.  History isolation.  When poll results of one symbol follow held
    data of another, non-empty symbol, the history after them holds prices
    of these results only: what was recorded for the former symbol is gone
    with the first of them. *)
Theorem history_isolation (m : model) (d : DashboardData)
    (ds : list DashboardData)
    (Hheld : Symbol (data m) <> "")
    (Hother : Symbol (data m) <> Symbol d)
    (Hsame : Forall (fun d' => Symbol d' = Symbol d) ds) :
  forall p, In p (history (polls m (d :: ds))) -> In p (map Price (d :: ds)).
Proof.
  intros p Hp. cbn [polls fold_left] in Hp.
  change (In p ([Price d] ++ map Price ds)).
  apply (polls_same_symbol (Symbol d) ds (updateData m d)); try done.
  - by destruct (updateData_fields m d) as (-> & _).
  - intros q Hq. apply updateData_history_incl in Hq as [Hq| ->]; [|by left].
    destruct (kept_spec m d) as [[_ Hk]|[Hn _]].
    + by rewrite Hk in Hq.
    + exfalso. by apply Hn.
Qed.

Lemma history_isolation_witness :
  let d := fst (fetchData (pollOf "ethusdt" "Ethereum (ETH)" 3000)) in
  let d' := fst (fetchData (pollOf "ethusdt" "Ethereum (ETH)" 3001)) in
  Symbol (data showingBtc) <> Symbol d
  /\ Forall (fun p => In p (map Price [d; d']))
            (history (polls showingBtc [d; d'])).
Proof.
  cbv zeta. split; [discriminate|].
  apply List.Forall_forall.
  apply (history_isolation showingBtc
           (fst (fetchData (pollOf "ethusdt" "Ethereum (ETH)" 3000)))
           [fst (fetchData (pollOf "ethusdt" "Ethereum (ETH)" 3001))]).
  - discriminate.
  - discriminate.
  - repeat constructor.
Defined.

(** X2.  The end of a swap and the timer.  [symbolChangedMsg] leaves the
    switching state, returns to the dashboard, empties the history and
    issues a poll together with the timer.  A tick issues a poll only in the
    dashboard mode and outside a swap; in every case it sets the timer
    again and leaves the model as it is. *)
Theorem swap_completion (m : model) :
  (exists m',
     Update m symbolChangedMsg = Some (m', [fetchDataCmd; tick])
     /\ switching m' = false /\ mode m' = dashboardView /\ history m' = []
     /\ data m' = data m /\ coins m' = coins m)
  /\ ((mode m = dashboardView /\ switching m = false
       /\ Update m tickMsg = Some (m, [fetchDataCmd; tick]))
      \/ ((mode m <> dashboardView \/ switching m = true)
          /\ Update m tickMsg = Some (m, [tick]))).
Proof.
  split.
  - eexists. split; [reflexivity|]. done.
  - cbn [Update]. destruct (mode m), (switching m); cbn;
      first [left; done | right; split; [|done]];
      first [by right | by left].
Qed.

(** *** Keys, cursor and commands *)

(** The [dataMsg] case touches the held data and the history only. *)
Lemma updateData_frame (m : model) (d : DashboardData) :
  mode (updateData m d) = mode m
  /\ dbHistory (updateData m d) = dbHistory m
  /\ quitting (updateData m d) = quitting m
  /\ coins (updateData m d) = coins m
  /\ coinCursor (updateData m d) = coinCursor m
  /\ switching (updateData m d) = switching m
  /\ historyScroll (updateData m d) = historyScroll m.
Proof.
  unfold updateData.
  repeat (match goal with |- context [if ?b then _ else _] => destruct b end;
          cbn [set_history set_data data history mode dbHistory quitting
               coins coinCursor switching historyScroll]);
    done.
Qed.

Lemma index_Some {A} (l : list A) (i : Z) :
  0 <= i < Z.of_nat (length l) -> exists x, index l i = Some x.
Proof.
  intros H. unfold index. destruct (Z.ltb_spec i 0); [lia|].
  apply lookup_lt_is_Some_2. lia.
Qed.

(** The loop of the [coinsMsg] case stops at the first coin that carries
    the symbol. *)
Lemma findCoin_spec (sym : string) (cs : list CoinInfo) (k : Z) :
  match findCoin sym cs k with
  | Some i =>
      k <= i < k + Z.of_nat (length cs)
      /\ (exists c, cs !! Z.to_nat (i - k) = Some c /\ ci_Symbol c = sym)
      /\ forall j c, (j < Z.to_nat (i - k))%nat -> cs !! j = Some c ->
                     ci_Symbol c <> sym
  | None => Forall (fun c => ci_Symbol c <> sym) cs
  end.
Proof.
  revert k. induction cs as [|c cs IH]; intros k; cbn [findCoin].
  - constructor.
  - destruct (String.eqb_spec (ci_Symbol c) sym) as [E|E].
    + split; [cbn; lia|]. rewrite Z.sub_diag. split; [by exists c|].
      intros j c' Hj. cbn in Hj. lia.
    + specialize (IH (k + 1)). destruct (findCoin sym cs (k + 1)) as [i|].
      * destruct IH as (Hr & (c' & Hc' & Hs) & Hbefore).
        cbn [length]. split; [lia|].
        replace (Z.to_nat (i - k)) with (S (Z.to_nat (i - (k + 1)))) by lia.
        split; [by exists c'|].
        intros [|j] c'' Hj Hl; cbn in Hl; [by inversion Hl; subst|].
        apply (Hbefore j); [lia | done].
      * by constructor.
Qed.

Lemma updateKey_total (m : model) (key : string) :
  cursor_ok m ->
  exists m' cmds, updateKey m key = Some (m', cmds) /\ cursor_ok m'.
Proof.
  unfold cursor_ok, updateKey. intros Hc.
  destruct (mode m);
    repeat (match goal with
            | |- context [if key_in ?k ?l then _ else _] =>
                destruct (key_in k l)
            end);
    try (eexists _, _; split; [reflexivity|];
         cbn [coinCursor coins set_quitting set_coinCursor set_mode
              set_historyScroll];
         try match goal with
             | |- context [if ?a <? ?b then _ else _] =>
                 destruct (Z.ltb_spec a b)
             end;
         cbn [coinCursor coins set_coinCursor set_historyScroll]; lia).
  destruct (Z.ltb_spec 0 (Z.of_nat (length (coins m)))) as [Hlen|Hlen].
  - destruct (index_Some (coins m) (coinCursor m)) as [c Hi]; [lia|].
    cbn [coins coinCursor set_switching]. rewrite Hi.
    eexists _, _. split; [reflexivity|]. cbn. lia.
  - eexists _, _. split; [reflexivity|]. lia.
Qed.



(** With a shorter list the cursor can be left below the list, and then
    [enter] indexes out of range. *)
Example shorter_coin_list_panics :
  let cs := [{| ci_Symbol := "btcusdt"; ci_Name := "Bitcoin (BTC)" |};
             {| ci_Symbol := "ethusdt"; ci_Name := "Ethereum (ETH)" |}] in
  exists m,
    updates initialModel [coinsMsg cs; KeyMsg "down"; coinsMsg (take 1 cs)]
    = Some m
    /\ coinCursor m = 1 /\ length (coins m) = 1%nat
    /\ Update m (KeyMsg "enter") = None.
Proof. cbv zeta. eexists. split; [reflexivity|]. done. Qed.

(** X7.  A coin list that arrives replaces the held one, and the cursor goes
    to the first coin of the new list that carries the held symbol; when no
    coin carries it the cursor stays where it is.  Nothing else of the model
    changes and no command is issued. *)
Theorem coin_cursor_placement (m : model) (cs : list CoinInfo) :
  exists m',
    Update m (coinsMsg cs) = Some (m', [])
    /\ coins m' = cs
    /\ set_coinCursor (coinCursor m) (set_coins (coins m) m') = m
    /\ ((exists i c,
           coinCursor m' = Z.of_nat i
           /\ cs !! i = Some c /\ ci_Symbol c = Symbol (data m)
           /\ forall j c', (j < i)%nat -> cs !! j = Some c' ->
                           ci_Symbol c' <> Symbol (data m))
        \/ (coinCursor m' = coinCursor m
            /\ Forall (fun c => ci_Symbol c <> Symbol (data m)) cs)).
Proof.
  cbn [Update data coins set_coins].
  pose proof (findCoin_spec (Symbol (data m)) cs 0) as Hf.
  destruct (findCoin (Symbol (data m)) cs 0) as [i|];
    eexists; (split; [reflexivity|]); (split; [done|]);
    (split; [by destruct m|]).
  - left. destruct Hf as (Hr & (c & Hc & Hs) & Hb).
    rewrite Z.sub_0_r in Hc, Hb.
    exists (Z.to_nat i), c. cbn. split; [lia|]. done.
  - right. done.
Qed.

Lemma index_In {A} (l : list A) (i : Z) (x : A) :
  index l i = Some x -> In x l.
Proof.
  unfold index. destruct (i <? 0); [done|].
  intros H. apply list_elem_of_In, list_elem_of_lookup. eauto.
Qed.

Ltac key_cases H :=
  unfold updateKey in H;
  destruct (mode _) eqn:?;
  repeat (match type of H with
          | context [if key_in ?k ?l then _ else _] =>
              destruct (key_in k l) eqn:?
          | context [if ?a <? ?b then _ else _] =>
              destruct (Z.ltb_spec a b)
          | context [index ?l ?i] =>
              destruct (index l i) eqn:?; cbn [mbind option_bind] in H
          end);
  try discriminate H;
  inversion H; subst; clear H.

Lemma key_in_sub (key : string) :
  key_in key ["ctrl+c"; "q"] = true -> key_in key ["ctrl+c"; "q"; "esc"] = true.
Proof.
  unfold key_in. cbn. destruct (String.eqb key "ctrl+c"); [done|].
  by destruct (String.eqb key "q").
Qed.

Lemma updateKey_requests (m m' : model) (key : string) (cmds : list Cmd)
    (H : updateKey m key = Some (m', cmds)) :
  (In Quit cmds <->
   mode m = dashboardView /\ key_in key ["ctrl+c"; "q"] = true)
  /\ (quitting m' = true <-> quitting m = true \/ In Quit cmds)
  /\ (key_in key ["ctrl+c"; "q"] = true -> mode m <> dashboardView ->
      mode m' = dashboardView)
  /\ (forall sym, In (changeSymbol sym) cmds ->
      mode m = coinSelectView /\ switching m' = true
      /\ exists coin, index (coins m) (coinCursor m) = Some coin
                      /\ In coin (coins m) /\ ci_Symbol coin = sym).
Proof.
  key_cases H; cbn -[key_in].
  all: repeat match goal with
              | H1 : key_in ?k ["ctrl+c"; "q"; "esc"] = false |- _ =>
                  assert (key_in k ["ctrl+c"; "q"] = true -> False)
                    by (intros Hq; apply key_in_sub in Hq; congruence);
                  clear H1
              end.
  all: split; [intuition (try discriminate; try congruence)|].
  all: split; [intuition (try discriminate; try congruence)|].
  all: split; [intuition (try discriminate; try congruence)|].
  all: intros sym Hs; cbn in Hs; try (intuition discriminate).
  destruct Hs as [Hs|[]]. inversion Hs; subst. cbn in *.
  split; [done|]. split; [done|]. exists c.
  split; [done|]. split; [by eapply index_In | done].
Qed.

(** X8.  What a step can ask for.  [Quit] is issued, and the quitting flag
    raised, only by [q] or [ctrl+c] in the dashboard mode; in the two other
    modes these keys lead back to the dashboard.  A swap is requested only
    by a step taken in the coin selection, only for the symbol of the coin
    of the held list that is under the cursor, and that step enters the
    switching state. *)
Theorem quit_and_swap_requests (m m' : model) (msg : Msg) (cmds : list Cmd)
    (Hstep : Update m msg = Some (m', cmds)) :
  (In Quit cmds <->
   mode m = dashboardView
   /\ exists key, msg = KeyMsg key /\ key_in key ["ctrl+c"; "q"] = true)
  /\ (quitting m' = true <-> quitting m = true \/ In Quit cmds)
  /\ (forall key, msg = KeyMsg key -> key_in key ["ctrl+c"; "q"] = true ->
      mode m <> dashboardView -> mode m' = dashboardView)
  /\ (forall sym, In (changeSymbol sym) cmds ->
      mode m = coinSelectView /\ switching m' = true
      /\ exists coin, index (coins m) (coinCursor m) = Some coin
                      /\ In coin (coins m) /\ ci_Symbol coin = sym).
Proof.
  destruct msg; cbn [Update] in Hstep.
  { destruct (updateKey_requests m m' key cmds Hstep) as (Hq & Hf & Hb & Hs).
    split; [|split; [done|split; [|done]]].
    - rewrite Hq. split; [intros [? ?]; eauto|].
      intros (? & k & [= <-] & ?). by split.
    - by intros k [= <-]. }
  - destruct (viewMode_eqb (mode m) dashboardView && negb (switching m));
      inversion Hstep; subst; cbn;
      (split; [split; [intuition discriminate | intros [_ H]; by destruct H as (? & ? & _)]|]);
      (split; [intuition discriminate|]);
      (split; [done|]); intros sym Hs; intuition discriminate.
  - inversion Hstep; subst; cbn.
    destruct (updateData_frame m d) as (_ & _ & Hq & _).
    split; [split; [done | intros [_ H]; by destruct H as (? & ? & _)]|].
    split; [rewrite Hq; tauto|]. split; [done|]. by intros sym [].
  - inversion Hstep; subst; cbn.
    split; [split; [done | intros [_ H]; by destruct H as (? & ? & _)]|].
    split; [destruct (findCoin _ _ _); cbn; tauto|].
    split; [done|]. by intros sym [].
  - inversion Hstep; subst; cbn.
    split; [split; [done | intros [_ H]; by destruct H as (? & ? & _)]|].
    split; [tauto|]. split; [done|]. by intros sym [].
  - inversion Hstep; subst; cbn.
    split; [split; [intuition discriminate | intros [_ H]; by destruct H as (? & ? & _)]|].
    split; [intuition discriminate|].
    split; [done|]. intros sym Hs. intuition discriminate.
  - inversion Hstep; subst; cbn.
    split; [split; [done | intros [_ H]; by destruct H as (? & ? & _)]|].
    split; [tauto|]. split; [done|]. by intros sym [].
Qed.

Lemma quit_and_swap_requests_witness :
  Update showingBtc (KeyMsg "q") = Some (set_quitting true showingBtc, [Quit])
  /\ (In Quit [Quit] <->
      mode showingBtc = dashboardView
      /\ exists key, KeyMsg "q" = KeyMsg key
                     /\ key_in key ["ctrl+c"; "q"] = true).
Proof.
  split; [reflexivity|].
  exact (proj1 (quit_and_swap_requests showingBtc _ (KeyMsg "q") [Quit]
                  eq_refl)).
Defined.

(** *** The history as a window *)

Lemma lastn_length {A} (n : nat) (l : list A) : (length (lastn n l) <= n)%nat.
Proof. unfold lastn. rewrite length_drop. lia. Qed.

Lemma lastn_all {A} (n : nat) (l : list A) :
  (length l <= n)%nat -> lastn n l = l.
Proof.
  intros H. unfold lastn. by replace (length l - n)%nat with 0%nat by lia.
Qed.

Lemma lastn_app {A} (n : nat) (l k : list A) :
  lastn n (lastn n l ++ k) = lastn n (l ++ k).
Proof.
  destruct (Nat.le_gt_cases (length l) n) as [Hle|Hgt].
  - by rewrite (lastn_all n l).
  - unfold lastn. rewrite !length_app, length_drop.
    assert (E1 : (length l - (length l - n) + length k - n = length k)%nat)
      by lia.
    assert (E2 : (length l + length k - n = (length l - n) + length k)%nat)
      by lia.
    rewrite E1, E2, <- drop_drop.
    by rewrite (drop_app_le l k (length l - n)) by lia.
Qed.

Lemma ring_append (h : list Q) (p : Q) :
  (length h <= 20)%nat ->
  (if 20 <? Z.of_nat (length (h ++ [p])) then tail (h ++ [p]) else h ++ [p])
  = lastn 20 (h ++ [p]).
Proof.
  intros Hlen. unfold lastn. rewrite length_app. cbn [length].
  destruct (Z.ltb_spec 20 (Z.of_nat (length h + 1))).
  - replace (length h + 1 - 20)%nat with 1%nat by lia.
    by destruct (h ++ [p]).
  - by replace (length h + 1 - 20)%nat with 0%nat by lia.
Qed.

(** X9.  The history is a window on the prices polled.  As long as the
    results carry the held symbol and a price above zero, the history after
    them is the last 20 elements of the history before followed by their
    prices, in the order of arrival. *)
Theorem history_is_recent_prices (m : model) (ds : list DashboardData)
    (Hlen : (length (history m) <= 20)%nat)
    (Hds : Forall (fun d => Symbol d = Symbol (data m) /\ (0 < Price d)%Q) ds) :
  history (polls m ds) = lastn 20 (history m ++ map Price ds).
Proof.
  revert m Hlen Hds. induction ds as [|d ds IH]; intros m Hlen Hds.
  - cbn. rewrite app_nil_r. by rewrite lastn_all.
  - inversion Hds as [|? ? [Hsym Hpos] Hds']; subst.
    assert (Hh : history (updateData m d) = lastn 20 (history m ++ [Price d])).
    { rewrite updateData_history. apply Qltb_lt in Hpos. rewrite Hpos.
      destruct (kept_spec m d) as [[[_ Hne] _]|[_ ->]]; [congruence|].
      by apply ring_append. }
    cbn [polls fold_left]. change (fold_left updateData ds (updateData m d))
      with (polls (updateData m d) ds).
    rewrite IH.
    + rewrite Hh, lastn_app, <- app_assoc. done.
    + rewrite Hh. apply lastn_length.
    + destruct (updateData_fields m d) as (-> & _).
      eapply Forall_impl; [exact Hds'|]. intros d' [-> ?]. by rewrite Hsym.
Qed.

Lemma history_is_recent_prices_witness :
  let d := fst (fetchData (pollOf "btcusdt" "Bitcoin (BTC)" 101)) in
  history (polls showingBtc [d; d]) = lastn 20 ([100%Q] ++ map Price [d; d]).
Proof.
  cbv zeta.
  apply (history_is_recent_prices showingBtc).
  - cbn. lia.
  - repeat constructor.
Defined.

(** *** Timers *)

(** The timers one step sets. *)
Lemma ticks_of_step (m m' : model) (msg : Msg) (cmds : list Cmd) :
  Update m msg = Some (m', cmds) ->
  ticksOf cmds = match msg with
                 | tickMsg | symbolChangedMsg => 1%nat
                 | _ => if leavesHistory m msg then 1%nat else 0%nat
                 end.
Proof.
  intros H. destruct msg; cbn [Update] in H.
  - unfold leavesHistory. key_cases H; try reflexivity.
    all: match goal with E : mode _ = _ |- _ => rewrite E end.
    all: match goal with E : key_in _ ["ctrl+c"; "q"; "esc"] = _ |- _ =>
           rewrite E end.
    all: reflexivity.
  - destruct (viewMode_eqb (mode m) dashboardView && negb (switching m));
      by inversion H.
  - by inversion H.
  - by inversion H.
  - by inversion H.
  - by inversion H.
  - by inversion H.
Qed.

(** X10.  Timers add up.  Every [tickMsg] sets the timer it came from
    again, a completed swap sets one more and so does leaving the history
    view, and nothing ever takes a timer away: after a run the number of
    timers set is the number at its start plus the number of swaps completed
    and of history views left during it.  [Init] sets none. *)
Theorem timers_accumulate (n n' : nat) (m : model) (msgs : list Msg)
    (Hrun : timers n m msgs = Some n') :
  n' = (n + rearmings m msgs)%nat /\ ticksOf Init = 0%nat.
Proof.
  split; [|reflexivity].
  revert n m Hrun. induction msgs as [|msg msgs IH]; intros n m Hrun.
  - cbn in *. inversion Hrun. lia.
  - cbn [timers rearmings] in *.
    destruct (Update m msg) as [[m1 cmds]|] eqn:Eu; [|discriminate Hrun].
    cbn [mbind option_bind] in Hrun.
    pose proof (ticks_of_step m m1 msg cmds Eu) as Ht.
    destruct msg; try (apply IH in Hrun; rewrite Hrun, Ht;
                       destruct (leavesHistory m _); lia).
    + destruct n as [|n0]; [discriminate Hrun|].
      apply IH in Hrun. rewrite Hrun, Ht. cbn. lia.
    + apply IH in Hrun. rewrite Hrun, Ht. lia.
Qed.

Lemma timers_accumulate_witness :
  timers 0 initialModel [symbolChangedMsg; tickMsg; symbolChangedMsg] = Some 2%nat
  /\ 2%nat = (0 + rearmings initialModel
                    [symbolChangedMsg; tickMsg; symbolChangedMsg])%nat.
Proof.
  split; [reflexivity|].
  exact (proj1 (timers_accumulate 0 2 initialModel
                  [symbolChangedMsg; tickMsg; symbolChangedMsg] eq_refl)).
Defined.

(** *** Rendering *)

Lemma renderSparkline_total (m : model) : is_Some (renderSparkline m).
Proof.
  unfold renderSparkline.
  destruct (Nat.ltb_spec (length (history m)) 2) as [Hlt|Hge]; [by eexists|].
  destruct (history m) as [|h0 t] eqn:Eh; [cbn in Hge; lia|].
  rewrite <- Eh in *.
  assert (Hin : In h0 (history m)) by (rewrite Eh; by left).
  assert (Hidx : index (history m) 0 = Some h0) by (by rewrite Eh).
  rewrite Hidx. cbn [mbind option_bind].
  destruct (minmax_spec (history m) h0 Hin) as (Hall & _ & _).
  destruct (minmax (history m) h0) as [min max]. cbn [fst snd] in *.
  apply mapM_is_Some_2, Forall_forall. intros [i v] Hiv.
  apply list_elem_of_lookup in Hiv as [k Hk].
  apply list_lookup_imap_Some in Hk as (v' & Hv' & Heq).
  inversion Heq; subst i v'; clear Heq.
  assert (Hb : (min <= v)%Q /\ (v <= max)%Q).
  { rewrite List.Forall_forall in Hall. apply Hall.
    apply list_elem_of_In, list_elem_of_lookup. eauto. }
  destruct (sparkCell_spec (history m) min max v k (proj1 Hb) (proj2 Hb))
    as (_ & g & _ & Hc).
  cbn. rewrite Hc. eauto.
Qed.

Lemma viewDashboard_total (m : model) : is_Some (viewDashboard m).
Proof.
  unfold viewDashboard.
  destruct (negb (String.eqb (Error (data m)) "")); [by eexists|].
  destruct (negb (Connected (data m))); [by eexists|].
  destruct (switching m); [by eexists|].
  destruct (renderSparkline_total m) as [sp ->]. by eexists.
Qed.

(** The rows of the history view are the trades from the scroll position
    on, 15 at most. *)
Lemma historyRows (m : model) :
  0 <= historyScroll m ->
  let last := Z.min (historyScroll m + 15) (Z.of_nat (length (dbHistory m))) in
  mapM (historyRow m) (seqZ (historyScroll m) (last - historyScroll m))
  = Some (rowOf <$> take 15 (drop (Z.to_nat (historyScroll m)) (dbHistory m))).
Proof.
  intros Hs last. apply mapM_Some_2.
  apply Forall2_same_length_lookup_2.
  - rewrite length_seqZ, length_fmap, length_take, length_drop. lia.
  - intros i z r Hz Hr.
    apply lookup_seqZ in Hz as [-> Hi].
    rewrite list_lookup_fmap in Hr.
    destruct (take 15 (drop (Z.to_nat (historyScroll m)) (dbHistory m)) !! i)
      as [trade|] eqn:Et; [|discriminate Hr].
    cbn in Hr. inversion Hr; subst r; clear Hr.
    apply lookup_take_Some in Et as [Ht _]. rewrite lookup_drop in Ht.
    unfold historyRow, index.
    destruct (Z.ltb_spec (historyScroll m + Z.of_nat i) 0); [lia|].
    replace (Z.to_nat (historyScroll m + Z.of_nat i))
      with (Z.to_nat (historyScroll m) + i)%nat by lia.
    by rewrite Ht.
Qed.

Lemma viewHistory_window (m : model) :
  0 <= historyScroll m ->
  viewHistory m
  = Some {| hs_coinName := if String.eqb (CoinName (data m)) "" then "Crypto"
                           else CoinName (data m);
            hs_body :=
              if (length (dbHistory m) =? 0)%nat then HistoryLoading
              else HistoryTable
                     (rowOf <$> take 15 (drop (Z.to_nat (historyScroll m))
                                              (dbHistory m)))
                     (historyScroll m + 1)
                     (Z.min (historyScroll m + 15)
                            (Z.of_nat (length (dbHistory m))))
                     (Z.of_nat (length (dbHistory m))) |}.
Proof.
  intros Hs. unfold viewHistory.
  destruct (length (dbHistory m) =? 0)%nat; [done|].
  pose proof (historyRows m Hs) as Hrows. cbv zeta in Hrows.
  destruct (Z.ltb_spec (Z.of_nat (length (dbHistory m)))
                       (historyScroll m + 15)) as [Hlt|Hge].
  - rewrite Z.min_r in Hrows by lia. rewrite Hrows. cbn.
    by rewrite Z.min_r by lia.
  - rewrite Z.min_l in Hrows by lia. rewrite Hrows. cbn.
    by rewrite Z.min_l by lia.
Qed.

Lemma update_nonneg (m m' : model) (msg : Msg) (cmds : list Cmd) :
  0 <= historyScroll m -> 0 <= coinCursor m ->
  Update m msg = Some (m', cmds) ->
  0 <= historyScroll m' /\ 0 <= coinCursor m'.
Proof.
  intros Hs Hc H. destruct msg; cbn [Update] in H.
  - key_cases H; cbn; lia.
  - destruct (viewMode_eqb (mode m) dashboardView && negb (switching m));
      inversion H; by subst.
  - inversion H; subst.
    by destruct (updateData_frame m d) as (_ & _ & _ & _ & -> & _ & ->).
  - inversion H; subst. cbn [data coins set_coins].
    pose proof (findCoin_spec (Symbol (data m)) cs 0) as Hf.
    destruct (findCoin (Symbol (data m)) cs 0); cbn; [lia|done].
  - inversion H; by subst.
  - inversion H; by subst.
  - inversion H; by subst.
Qed.

(** X11.  Rendering does not panic.  In every state the dashboard can get
    into from its initial model, the scroll position and the cursor are not
    negative and [View] returns: the sparkline never indexes its glyphs out
    of range and the history view never reads a trade that is not there. *)
Theorem rendering_never_panics (msgs : list Msg) (m : model)
    (Hreach : updates initialModel msgs = Some m) :
  0 <= historyScroll m /\ 0 <= coinCursor m
  /\ exists out, View m = Some out.
Proof.
  assert (Hinv : 0 <= historyScroll m /\ 0 <= coinCursor m).
  { assert (H0 : 0 <= historyScroll initialModel
                 /\ 0 <= coinCursor initialModel) by (cbn; lia).
    revert Hreach H0. generalize initialModel as m0. revert m.
    induction msgs as [|msg msgs IH]; intros m m0 Hreach [Hs Hc].
    - cbn in Hreach. inversion Hreach; by subst.
    - cbn [updates] in Hreach.
      destruct (Update m0 msg) as [[m1 cmds]|] eqn:Eu; [|discriminate Hreach].
      cbn [mbind option_bind] in Hreach.
      apply (IH m m1 Hreach). by apply (update_nonneg m0 m1 msg cmds). }
  destruct Hinv as [Hs Hc]. split; [done|]. split; [done|].
  unfold View. destruct (quitting m); [by eexists|].
  destruct (mode m).
  - destruct (viewDashboard_total m) as [sc ->]. by eexists.
  - by eexists.
  - rewrite (viewHistory_window m Hs). by eexists.
Qed.

Lemma rendering_never_panics_witness :
  exists m,
    updates initialModel [KeyMsg "esc"; KeyMsg "h"; KeyMsg "up"] = Some m
    /\ 0 <= historyScroll m /\ 0 <= coinCursor m
    /\ exists out, View m = Some out.
Proof.
  eexists. split; [reflexivity|].
  exact (rendering_never_panics [KeyMsg "esc"; KeyMsg "h"; KeyMsg "up"] _
           eq_refl).
Defined.



(** *** A swap request without a reply *)

(** X22.  A swap request that gets no reply leaves the dashboard switching.
    When the [POST] fails the command delivers no message.  Only
    [symbolChangedMsg] ends the switching state: every other message leaves
    it on, a tick then issues no poll, and [viewDashboard] shows the error,
    the connecting or the switching screen, never the prices.  Any reply to
    the [POST], whatever its status, delivers [symbolChangedMsg]. *)
Theorem failed_swap_request_sticks (m : model) (msg : Msg) (env : CmdEnv)
    (sym : string) (Hswitching : switching m = true) :
  (postReply env = None -> runCmd env (changeSymbol sym) = None)
  /\ (postReply env <> None ->
      runCmd env (changeSymbol sym) = Some symbolChangedMsg)
  /\ Update m tickMsg = Some (m, [tick])
  /\ (forall m' cmds, Update m msg = Some (m', cmds) ->
      msg <> symbolChangedMsg -> switching m' = true)
  /\ (exists text help,
        viewDashboard m
        = Some (Box [Styled headerStyle "◆ Trading Pipeline Dashboard" []; Gap;
                     text; Gap; Styled helpStyle help []])).
Proof.
  split; [cbn; by intros ->|]. split; [cbn; by destruct (postReply env)|].
  split; [cbn; rewrite Hswitching; by rewrite andb_false_r|]. split.
  - intros m' cmds H Hne. destruct msg; cbn [Update] in H.
    + key_cases H; by cbn.
    + destruct (viewMode_eqb (mode m) dashboardView && negb (switching m));
        inversion H; by subst.
    + inversion H; subst.
      by destruct (updateData_frame m d) as (_ & _ & _ & _ & _ & -> & _).
    + inversion H; subst. by destruct (findCoin _ _ _).
    + inversion H; by subst.
    + done.
    + inversion H; by subst.
  - unfold viewDashboard.
    destruct (negb (String.eqb (Error (data m)) "")); [by eexists _, _|].
    destruct (negb (Connected (data m))); [by eexists _, _|].
    rewrite Hswitching. by eexists _, _.
Qed.

Lemma failed_swap_request_sticks_witness :
  let m := set_switching true showingBtc in
  let env := {| pollEnv := serverDown; coinsReply := None;
                historyReply := None; postReply := None |} in
  switching m = true
  /\ runCmd env (changeSymbol "ethusdt") = None
  /\ Update m tickMsg = Some (m, [tick]).
Proof.
  cbv zeta.
  destruct (failed_swap_request_sticks (set_switching true showingBtc) tickMsg
              {| pollEnv := serverDown; coinsReply := None;
                 historyReply := None; postReply := None |}
              "ethusdt" eq_refl) as (H1 & _ & H2 & _).
  split; [reflexivity|]. split; [exact (H1 eq_refl) | exact H2].
Defined.

End DashboardFacts.

(** ** Feed client *)

Module FeedFacts.
Import Num NumFacts Feed.

Section Loop.

Variable unmarshalTrade : string -> option BinanceTrade.
Variable numberIsFloat : string -> bool.
Variable unmarshalFloat : string -> option Q.

Local Abbreviation handleMessage :=
  (handleMessage unmarshalTrade numberIsFloat unmarshalFloat).
Local Abbreviation readMessages :=
  (readMessages unmarshalTrade numberIsFloat unmarshalFloat).
Local Abbreviation step := (step unmarshalTrade numberIsFloat unmarshalFloat).
Local Abbreviation run := (run unmarshalTrade numberIsFloat unmarshalFloat).
Local Abbreviation parsePrice := (parsePrice numberIsFloat unmarshalFloat).

(** A price above zero can only come out of the second decoding. *)
Lemma parsePrice_pos (s : string) :
  (0 < parsePrice s)%Q ->
  numberIsFloat s = true /\ unmarshalFloat s = Some (parsePrice s).
Proof.
  unfold Feed.parsePrice. intros H.
  destruct (numberIsFloat s); [|by apply Qlt_irrefl in H].
  destruct (unmarshalFloat s); [done | by apply Qlt_irrefl in H].
Qed.

Lemma run_dialFailures (b : BinanceClient) (n : nat) :
  run {| client := b; loc := AtTop |} (dialFailures n)
  = Some ({| client := b; loc := AtTop |}, retries (symbol b) n).
Proof.
  induction n as [|n IH]; [reflexivity|].
  cbn [dialFailures Feed.run Feed.step client loc mbind option_bind].
  rewrite IH. reflexivity.
Qed.

(** C4.  A dial that fails is followed by a sleep of 5 seconds and the loop
    starts over with the client untouched, however many times the dial has
    failed before: [n] failures in a row give [n] sleeps of 5.  When
    [readMessages] has returned, the loop closes the connection and looks
    at the restart channel: if it holds a signal, the signal is taken, the
    channel is empty afterwards, and the loop starts over without a sleep;
    if it holds none, the loop sleeps 2 seconds and starts over. *)
Theorem retry_policy (sym : string) (cn : option Conn) (cl : gset Conn)
    (pending : bool) (address : string) (c : Conn) (n : nat) :
  let b := mkClient sym cn cl pending in
  step {| client := b; loc := AtDial address |} (EvDial None)
  = Some ({| client := b; loc := AtTop |}, [Slept 5])
  /\ step {| client := b; loc := AtTop |} EvLoop
     = Some ({| client := b; loc := AtDial (url sym) |}, [Dialed (url sym)])
  /\ run {| client := b; loc := AtTop |} (dialFailures n)
     = Some ({| client := b; loc := AtTop |}, retries sym n)
  /\ Forall (fun o => forall s, o = Slept s -> s = 5) (retries sym n)
  /\ step {| client := mkClient sym cn cl true; loc := AtRead c |}
          (EvRead ReadFail)
     = Some ({| client := mkClient sym cn ({[c]} ∪ cl) false; loc := AtTop |},
             [])
  /\ step {| client := mkClient sym cn cl false; loc := AtRead c |}
          (EvRead ReadFail)
     = Some ({| client := mkClient sym cn ({[c]} ∪ cl) false; loc := AtTop |},
             [Slept 2]).
Proof.
  cbv zeta. split; [reflexivity|]. split; [reflexivity|].
  split; [apply run_dialFailures|]. split; [|split; reflexivity].
  induction n as [|n IH]; cbn [retries]; [constructor|].
  constructor; [discriminate|].
  constructor; [|exact IH]. by intros s [= <-].
Qed.

Lemma run_dialFailures_then (b : BinanceClient) (n : nat) (evs : list Event) :
  run {| client := b; loc := AtTop |} (dialFailures n ++ evs)
  = (fun r : RunState * list Output => (r.1, retries (symbol b) n ++ r.2))
      <$> run {| client := b; loc := AtTop |} evs.
Proof.
  induction n as [|n IH].
  - cbn [dialFailures retries app].
    by destruct (run _ evs) as [[? ?]|].
  - cbn [dialFailures retries app Feed.run Feed.step client loc
         mbind option_bind].
    rewrite IH. by destruct (run _ evs) as [[? ?]|].
Qed.

(** X3.  Reconnection.  After any number of failed dials, each followed by
    its sleep of 5 seconds, a dial that succeeds puts the loop into
    [readMessages] on the new connection, which becomes the connection of
    the client; the symbol dialled is the one of the client. *)
Theorem reconnection (sym : string) (cn : option Conn) (cl : gset Conn)
    (pending : bool) (n : nat) (c : Conn) :
  run {| client := mkClient sym cn cl pending; loc := AtTop |}
      (dialFailures n ++ [EvLoop; EvDial (Some c)])
  = Some ({| client := mkClient sym (Some c) cl pending; loc := AtRead c |},
          retries sym n ++ [Dialed (url sym)]).
Proof. rewrite run_dialFailures_then. reflexivity. Qed.

(** X4.  The restart signal has one slot.  Two calls of [ChangeSymbol] in a
    row leave the symbol of the second call and one signal: the next time
    [readMessages] returns the loop starts over without a sleep, dials the
    new symbol, and the time after that, with no call in between, it sleeps
    2 seconds. *)
Theorem restart_single_slot (b : BinanceClient) (s1 s2 : string)
    (c c' : Conn) :
  let b2 := ChangeSymbol s2 (ChangeSymbol s1 b) in
  symbol b2 = s2 /\ restart b2 = true /\ conn b2 = conn b
  /\ exists st,
       run {| client := b2; loc := AtRead c |}
           [EvRead ReadFail; EvLoop; EvDial (Some c'); EvRead ReadFail]
       = Some (st, [Dialed (url s2); Slept 2])
       /\ loc st = AtTop /\ restart (client st) = false.
Proof.
  cbv zeta. repeat split. eexists. split; [reflexivity|]. done.
Qed.

(** C5.  A message that was read is either dropped or sent on.  It is
    dropped when it does not decode or when the price that comes out of it
    is not above zero; then nothing is sent, [readMessages] goes on with the
    following reads as if the message had not been there, and [Run] stays
    where it is, with no sleep.  Otherwise it decodes to a trade whose price
    string decodes to a price [p] above zero, and exactly one update is
    sent, with price [p] and time [time.UnixMilli] of the [T] field of the
    trade; no clock is read. *)
Theorem message_handling (message : string) (rest : list Read)
    (b : BinanceClient) (c : Conn) :
  let st := {| client := b; loc := AtRead c |} in
  ((unmarshalTrade message = None
    \/ exists trade, unmarshalTrade message = Some trade
                     /\ (parsePrice (bt_Price trade) <= 0)%Q)
   /\ handleMessage message = None
   /\ readMessages (ReadOk message :: rest) = readMessages rest
   /\ step st (EvRead (ReadOk message)) = Some (st, []))
  \/ (exists trade p,
        unmarshalTrade message = Some trade
        /\ numberIsFloat (bt_Price trade) = true
        /\ unmarshalFloat (bt_Price trade) = Some p
        /\ (0 < p)%Q
        /\ let u := {| pu_Price := p; pu_Time := UnixMilli (bt_Time trade) |} in
           handleMessage message = Some u
           /\ readMessages (ReadOk message :: rest)
              = (u :: (readMessages rest).1.1,
                 (readMessages rest).1.2, (readMessages rest).2)
           /\ step st (EvRead (ReadOk message)) = Some (st, [Sent u])).
Proof.
  cbv zeta. cbn [Feed.readMessages Feed.step loc client].
  unfold Feed.handleMessage.
  destruct (unmarshalTrade message) as [trade|] eqn:Et.
  - destruct (Qltb_spec 0 (parsePrice (bt_Price trade))) as [Hp|Hp].
    + right. destruct (parsePrice_pos _ Hp) as [Hn Hu].
      exists trade, (parsePrice (bt_Price trade)).
      repeat split; try done. by destruct (readMessages rest) as [[? ?] ?].
    + left. split; [right; exists trade; split; [done|lra]|].
      split; [done|]. split; [|done].
      by destruct (readMessages rest) as [[? ?] ?].
  - left. split; [by left|]. split; [done|]. split; [|done].
    by destruct (readMessages rest) as [[? ?] ?].
Qed.

Lemma handleMessage_pos (message : string) (u : PriceUpdate) :
  handleMessage message = Some u -> (0 < pu_Price u)%Q.
Proof.
  unfold Feed.handleMessage.
  destruct (unmarshalTrade message) as [trade|]; [|done].
  destruct (Qltb_spec 0 (parsePrice (bt_Price trade))) as [Hp|Hp]; [|done].
  by intros [= <-].
Qed.

Lemma run_reads (b : BinanceClient) (c : Conn) (messages : list string) :
  run {| client := b; loc := AtRead c |} (EvRead <$> (ReadOk <$> messages))
  = Some ({| client := b; loc := AtRead c |},
          Sent <$> omap handleMessage messages).
Proof.
  induction messages as [|message messages IH]; [reflexivity|].
  cbn [fmap list_fmap Feed.run Feed.step client loc mbind option_bind omap
       list_omap].
  rewrite IH. cbn. by destruct (handleMessage message).
Qed.

(** X13.  Updates go out in the order the trades come in.  [readMessages]
    handles the messages read before the first failed read, in order, sends
    the update of each one that has one, and returns at that failed read;
    it reads nothing after it, and sends no price that is not above zero.
    Inside [Run] the same messages give the same updates, and the loop
    stays in [readMessages]. *)
Theorem updates_in_order (reads : list Read) (b : BinanceClient) (c : Conn) :
  readMessages reads
  = (omap handleMessage (untilFail reads), afterFail reads, anyFail reads)
  /\ Forall (fun u => (0 < pu_Price u)%Q) (omap handleMessage (untilFail reads))
  /\ run {| client := b; loc := AtRead c |}
         (EvRead <$> (ReadOk <$> untilFail reads))
     = Some ({| client := b; loc := AtRead c |},
             Sent <$> omap handleMessage (untilFail reads)).
Proof.
  split; [|split; [|apply run_reads]].
  - induction reads as [|[message|] reads IH]; [done| |done].
    cbn [Feed.readMessages untilFail afterFail anyFail existsb omap list_omap].
    rewrite IH. by destruct (handleMessage message).
  - apply Forall_forall. intros u Hu.
    apply list_elem_of_omap in Hu as (message & _ & Hm).
    by apply (handleMessage_pos message).
Qed.

(** X14.  A symbol change that arrives while [Run] is inside [Dial] is not
    picked up by that dial.  The address being dialled was built from the
    symbol read at the top of the loop; [ChangeSymbol] sets the new symbol,
    closes the connection the client held before and leaves its signal, but
    the connection the dial returns is for the former symbol, it is not
    closed, and the loop reads from it while the client names the new
    symbol.  The signal stays until that connection fails. *)
Theorem symbol_change_while_dialing (sym s2 : string) (cn : option Conn)
    (cl : gset Conn) (pending : bool) (c : Conn)
    (Hfresh : c ∉ cl) (Hnew : cn <> Some c) :
  exists st,
    run {| client := mkClient sym cn cl pending; loc := AtTop |}
        [EvLoop; EvChangeLocked s2; EvSignal; EvDial (Some c)]
    = Some (st, [Dialed (url sym)])
    /\ loc st = AtRead c
    /\ symbol (client st) = s2
    /\ conn (client st) = Some c
    /\ (c ∉ closed (client st))
    /\ restart (client st) = true
    /\ exists st',
         run st [EvRead ReadFail; EvLoop] = Some (st', [Dialed (url s2)])
         /\ restart (client st') = false.
Proof.
  eexists. split; [reflexivity|]. cbn.
  split; [done|]. split; [done|]. split; [done|].
  split.
  { destruct cn as [c'|]; [|done].
    rewrite elem_of_union, elem_of_singleton.
    intros [->|Hin]; [by apply Hnew | by apply Hfresh]. }
  split; [done|]. eexists. by split.
Qed.

End Loop.

Lemma symbol_change_while_dialing_witness :
  let trade := fun _ : string => @None BinanceTrade in
  let isFloat := fun _ : string => false in
  let float := fun _ : string => @None Q in
  exists st,
    run trade isFloat float
        {| client := mkClient "btcusdt" (Some 1%nat) ∅ false; loc := AtTop |}
        [EvLoop; EvChangeLocked "ethusdt"; EvSignal; EvDial (Some 2%nat)]
    = Some (st, [Dialed (url "btcusdt")])
    /\ loc st = AtRead 2%nat
    /\ symbol (client st) = "ethusdt".
Proof.
  cbv zeta.
  assert (Hf : (2%nat : Conn) ∉ (∅ : gset Conn)) by apply not_elem_of_empty.
  assert (Hn : Some 1%nat <> Some 2%nat) by discriminate.
  destruct (symbol_change_while_dialing (fun _ => None) (fun _ => false)
              (fun _ => None) "btcusdt" "ethusdt" (Some 1%nat) ∅
              false 2%nat Hf Hn) as (st & Hr & Hl & Hs & _).
  exists st. split; [exact Hr | split; [exact Hl | exact Hs]].
Defined.

End FeedFacts.

(** ** Price hub *)

Module HubFacts.
Import Num Hub.

#[local] Set Warnings "-clear-no-such-hyp".

Lemma deliver_fold (writeFails : Conn -> bool) (order : list Conn) (s : Server) :
  fold_left (deliver writeFails) order s
  = mkServer (currentPrice s) (clients s) (processor s)
             (list_to_set (failed writeFails order) ∪ closed s)
             (removals s ++ failed writeFails order).
Proof.
  revert s. induction order as [|c order IH]; intros s; cbn [fold_left].
  - cbn. rewrite app_nil_r, (left_id_L ∅ (∪)). by destruct s.
  - rewrite IH. unfold deliver, failed. cbn [List.filter].
    destruct (writeFails c); cbn; [|done].
    f_equal; [set_solver | by rewrite <- app_assoc].
Qed.

Lemma failed_spec (writeFails : Conn -> bool) (order : list Conn) (c : Conn) :
  c ∈ failed writeFails order <-> c ∈ order /\ writeFails c = true.
Proof. unfold failed. rewrite !list_elem_of_In. apply filter_In. Qed.

Lemma runRemovals_all (s : Server) :
  drain s
  = mkServer (currentPrice s) (clients s ∖ list_to_set (removals s))
             (processor s) (closed s) [].
Proof.
  unfold drain. destruct s as [p cs pr cl r]. cbn [removals].
  revert cs. induction r as [|c r IH]; intros cs; cbn.
  - f_equal. set_solver.
  - unfold runRemoval, removeClient. cbn. rewrite IH. f_equal. set_solver.
Qed.

(** C3, as stated, fails: a client whose write has failed is not out of the
    set at once.  [broadcast] closes it and starts a [removeClient]
    goroutine, which cannot run before [broadcast] has released the read
    lock and may run later still.  Until it has run, the set contains the
    client, and a broadcast that starts in between attempts the write to it
    again. *)
Lemma failed_client_still_registered :
  let s1 := (broadcast firstFails twoClients).2 in
  (1%nat : Conn) ∈ (broadcast firstFails twoClients).1
  /\ firstFails 1%nat = true
  /\ (1%nat : Conn) ∈ clients s1
  /\ removals s1 = [1%nat]
  /\ (1%nat : Conn) ∈ (broadcast firstFails s1).1.
Proof.
  cbv zeta. unfold broadcast. cbn [fst snd]. rewrite deliver_fold.
  cbn [clients]. rewrite !elem_of_elements.
  split; [unfold twoClients, addClient; cbn; set_solver|].
  split; [done|].
  split; [unfold twoClients, addClient; cbn; set_solver|].
  split; [by vm_compute | unfold twoClients, addClient; cbn; set_solver].
Qed.

(** C3, amended.  One broadcast attempts the write to every client of the
    set exactly once and leaves the set as it is.  Every client whose write
    failed is closed and has a [removeClient] goroutine started for it.
    Once the started goroutines have run, none of these clients is in the
    set, and a later broadcast attempts no write to them (as long as they
    are not registered again). *)
Theorem broadcast_delivery (writeFails : Conn -> bool) (s : Server) :
  let attempts := (broadcast writeFails s).1 in
  let s' := (broadcast writeFails s).2 in
  NoDup attempts
  /\ (forall c, c ∈ attempts <-> c ∈ clients s)
  /\ clients s' = clients s
  /\ removals s' = removals s ++ failed writeFails attempts
  /\ closed s' = list_to_set (failed writeFails attempts) ∪ closed s
  /\ removals (drain s') = []
  /\ (forall c, c ∈ attempts -> writeFails c = true ->
        (c ∉ clients (drain s'))
        /\ (forall writeFails', c ∉ (broadcast writeFails' (drain s')).1))
  /\ (forall c, c ∈ clients s -> writeFails c = false -> c ∉ removals s ->
        c ∈ clients (drain s')).
Proof.
  cbv zeta. unfold broadcast. cbn [fst snd]. rewrite deliver_fold.
  cbn [clients removals closed].
  split; [apply NoDup_elements|].
  split; [intros c; apply elem_of_elements|].
  do 3 (split; [done|]).
  rewrite runRemovals_all. cbn [clients removals].
  split; [done|]. split.
  - intros c Hc Hf.
    assert (Hn : c ∉ (clients s
                      ∖ list_to_set
                          (removals s
                           ++ failed writeFails (elements (clients s))))).
    { rewrite elem_of_difference, elem_of_list_to_set, elem_of_app, failed_spec.
      tauto. }
    split; [done|]. intros wf'. by rewrite elem_of_elements.
  - intros c Hc Hf Hr.
    rewrite elem_of_difference, elem_of_list_to_set, elem_of_app, failed_spec.
    split; [done|]. intros [?|[_ ?]]; [done|congruence].
Qed.

(** X5.  [UpdatePrice] stores the price, hands it to the processor as its
    newest sample, and then attempts one write to every client of the set;
    the set itself is left as it is. *)
Theorem update_price_fanout (writeFails : Conn -> bool) (price : Q)
    (s : Server) :
  let attempts := (UpdatePrice writeFails price s).1 in
  let s' := (UpdatePrice writeFails price s).2 in
  GetPrice s' = price
  /\ processor s' = processor s ++ [price]
  /\ attempts = elements (clients s)
  /\ NoDup attempts
  /\ clients s' = clients s.
Proof.
  cbv zeta. unfold UpdatePrice, broadcast. cbn [fst snd clients].
  rewrite deliver_fold. cbn. repeat split. apply NoDup_elements.
Qed.

Lemma wsReadLoop_spec (c : Conn) (reads : list Feed.Read) (s : Server) :
  wsReadLoop c reads s
  = (if Feed.anyFail reads then removeClient c s else s, Feed.anyFail reads).
Proof.
  induction reads as [|[message|] reads IH]; [done| |done].
  cbn [wsReadLoop Feed.anyFail existsb orb]. exact IH.
Qed.

(** X15.  A socket is registered for as long as its handler reads from it.
    When the upgrade fails the server is left as it is.  Otherwise the
    connection is in the set of clients, and reached by a broadcast, until
    a read from it fails; then the handler removes it and returns, and the
    set is the one from before the connection without it, so for a
    connection that was not in the set the set is as before.  Removing a
    connection that is no longer there, as the goroutine of a failed write
    may do afterwards, changes nothing.  Price, processor and the other
    clients are never touched. *)
Theorem socket_lifecycle (c : Conn) (reads : list Feed.Read) (s : Server) :
  let r := HandleWebSocket (Some c) reads s in
  HandleWebSocket None reads s = (s, true)
  /\ r.2 = Feed.anyFail reads
  /\ currentPrice r.1 = currentPrice s /\ processor r.1 = processor s
  /\ (forall c', c' <> c -> c' ∈ clients r.1 <-> c' ∈ clients s)
  /\ ((r.2 = false /\ clients r.1 = {[c]} ∪ clients s
       /\ forall writeFails, c ∈ (broadcast writeFails r.1).1)
      \/ (r.2 = true /\ clients r.1 = clients s ∖ {[c]}
          /\ (c ∉ clients s -> clients r.1 = clients s)
          /\ removeClient c r.1 = r.1)).
Proof.
  cbv zeta. unfold HandleWebSocket. rewrite wsReadLoop_spec. cbn [fst snd].
  split; [done|]. split; [done|].
  destruct (Feed.anyFail reads); cbn.
  - split; [done|]. split; [done|]. split.
    { intros c' Hc'. rewrite elem_of_difference, elem_of_union,
        !elem_of_singleton. tauto. }
    right. split; [done|].
    assert (E : ({[c]} ∪ clients s) ∖ {[c]} = clients s ∖ {[c]}).
    { apply set_eq. intros x.
      rewrite !elem_of_difference, elem_of_union, !elem_of_singleton. tauto. }
    rewrite E. split; [done|]. split.
    + intros Hc. apply set_eq. intros x.
      rewrite elem_of_difference, elem_of_singleton.
      split; [tauto|]. intros Hx. split; [done|]. by intros ->.
    + unfold removeClient. cbn. f_equal. apply set_eq. intros x.
      rewrite !elem_of_difference, elem_of_union, !elem_of_singleton. tauto.
  - split; [done|]. split; [done|]. split.
    { intros c' Hc'. rewrite elem_of_union, elem_of_singleton. tauto. }
    left. split; [done|]. split; [done|].
    intros wf. unfold broadcast. cbn.
    rewrite elem_of_elements, elem_of_union, elem_of_singleton. by left.
Qed.

Lemma last_cons_default {A} (l : list A) (x d d' : A) :
  List.last (x :: l) d = List.last (x :: l) d'.
Proof.
  revert x. induction l as [|y l IH]; intros x; [done|].
  change (List.last (y :: l) d = List.last (y :: l) d'). apply IH.
Qed.

Lemma updatePrices_spec (writeFails : Conn -> bool) (prices : list Q)
    (s : Server) :
  processor (updatePrices writeFails prices s) = processor s ++ prices
  /\ GetPrice (updatePrices writeFails prices s)
     = List.last prices (currentPrice s)
  /\ clients (updatePrices writeFails prices s) = clients s.
Proof.
  revert s. induction prices as [|p prices IH]; intros s.
  - cbn. by rewrite app_nil_r.
  - cbn [updatePrices fold_left].
    change (fold_left _ prices ?s0) with (updatePrices writeFails prices s0).
    destruct (IH (UpdatePrice writeFails p s).2) as (Hp & Hg & Hc).
    rewrite Hp, Hg, Hc. unfold UpdatePrice, broadcast. cbn [fst snd].
    rewrite deliver_fold. cbn. unfold add_price. rewrite <- app_assoc.
    split; [done|].
    split; [|done]. destruct prices as [|q prices]; [done|].
    apply last_cons_default.
Qed.

End HubFacts.

(** ** Symbol swap *)

Module SwapFacts.
Import Num Swap.

(** For a symbol of the catalog [GetCoinName] gives a name that is not the
    symbol, so the handler does not take it for an unknown one. *)
Lemma GetCoinName_known (sym : string) :
  inCatalog sym = true -> GetCoinName sym <> sym.
Proof.
  unfold inCatalog, GetCoinName, coins. cbn [existsb find fst snd].
  repeat (match goal with
          | |- context [String.eqb ?a sym] =>
              destruct (String.eqb_spec a sym) as [<-|_];
              [intros _; cbn; discriminate|]
          end; cbn [orb]).
  discriminate.
Qed.

Lemma GetCoinName_unknown (sym : string) :
  inCatalog sym = false -> GetCoinName sym = sym.
Proof.
  unfold inCatalog, GetCoinName, coins. cbn [existsb find fst snd].
  repeat (match goal with
          | |- context [String.eqb ?a sym] =>
              destruct (String.eqb_spec a sym) as [<-|_];
              [discriminate|]
          end; cbn [orb]).
  done.
Qed.



(** C2.  For a symbol that is not in the catalog the handler answers with
    the client error 400 and makes no call: the app state, the processor,
    the stored price, the clients and the feed client, its symbol included,
    are what they were. *)
Theorem unknown_symbol_rejected (w : World) (sym : string)
    (Hunknown : inCatalog sym = false) :
  handleSymbol (post sym) w
  = (HttpError "Unknown symbol" StatusBadRequest, w, [])
  /\ 400 <= StatusBadRequest < 500.
Proof.
  split; [|by vm_compute].
  unfold handleSymbol, post. cbn [method body].
  change (String.eqb "POST" "POST") with true. cbn match.
  rewrite (GetCoinName_unknown sym Hunknown), String.eqb_refl. reflexivity.
Qed.

Lemma unknown_symbol_rejected_witness :
  inCatalog "adausdt" = false
  /\ handleSymbol (post "adausdt") tracking
     = (HttpError "Unknown symbol" StatusBadRequest, tracking, []).
Proof.
  split; [reflexivity|].
  exact (proj1 (unknown_symbol_rejected tracking "adausdt" eq_refl)).
Defined.

(** What a [POST] with a symbol that has a name does. *)
Lemma handleSymbol_swap (w : World) (sym : string) :
  GetCoinName sym <> sym ->
  handleSymbol (post sym) w
  = (Json sym (GetCoinName sym),
     exec (CallChangeSymbol sym)
       (exec CallResetPrice
          (exec CallResetProcessor
             (exec (CallSetSymbol sym (GetCoinName sym)) w))),
     [(CallSetSymbol sym (GetCoinName sym), w);
      (CallResetProcessor, exec (CallSetSymbol sym (GetCoinName sym)) w);
      (CallResetPrice,
       exec CallResetProcessor (exec (CallSetSymbol sym (GetCoinName sym)) w));
      (CallChangeSymbol sym,
       exec CallResetPrice
         (exec CallResetProcessor
            (exec (CallSetSymbol sym (GetCoinName sym)) w)))]).
Proof.
  intros Hn. unfold handleSymbol, post. cbn [method body].
  change (String.eqb "POST" "POST") with true. cbn match.
  by destruct (String.eqb_spec (GetCoinName sym) sym).
Qed.

Lemma handleSymbol_cases (r : Request) (w : World) :
  ((handleSymbol r w).1.2 = w /\ (handleSymbol r w).2 = [])
  \/ exists sym, GetCoinName sym <> sym
                 /\ handleSymbol r w = handleSymbol (post sym) w.
Proof.
  destruct r as [meth bd]. unfold handleSymbol at 1 2. cbn [method body].
  destruct (String.eqb_spec meth "POST") as [->|Hm]; [|by left].
  destruct bd as [sym|]; [|by left].
  destruct (String.eqb_spec (GetCoinName sym) sym) as [E|E]; [by left|].
  right. exists sym. split; [done|]. unfold handleSymbol, post.
  cbn [method body]. change (String.eqb "POST" "POST") with true. cbn match.
  by destruct (String.eqb_spec (GetCoinName sym) sym).
Qed.

(** X16.  What a request on [/api/symbol] can do.  Either it is a [POST]
    whose symbol [GetCoinName] gives a name for, and then the four calls of
    a swap are made and the answer names the symbol and the name; or
    nothing is called and the state is left as it is: a [POST] whose body
    does not decode is answered with 400 [Invalid request], a [POST] whose
    symbol has no name with 400 [Unknown symbol], and any other method with
    the held symbol and name. *)
Theorem request_effects (r : Request) (w : World) :
  let res := handleSymbol r w in
  (exists sym,
     method r = "POST" /\ body r = Some sym /\ GetCoinName sym <> sym
     /\ map fst res.2 = [CallSetSymbol sym (GetCoinName sym);
                         CallResetProcessor; CallResetPrice;
                         CallChangeSymbol sym]
     /\ res.1.1 = Json sym (GetCoinName sym))
  \/ (res.1.2 = w /\ res.2 = []
      /\ ((method r = "POST" /\ body r = None
           /\ res.1.1 = HttpError "Invalid request" 400)
          \/ (method r = "POST"
              /\ (exists sym, body r = Some sym /\ GetCoinName sym = sym)
              /\ res.1.1 = HttpError "Unknown symbol" 400)
          \/ (method r <> "POST"
              /\ res.1.1 = Json (symbol (appState w))
                                (coinName (appState w))))).
Proof.
  cbv zeta. destruct r as [meth bd]. unfold handleSymbol. cbn [method body].
  destruct (String.eqb_spec meth "POST") as [->|Hm].
  - destruct bd as [sym|].
    + destruct (String.eqb_spec (GetCoinName sym) sym) as [E|E].
      * right. cbn. split; [done|]. split; [done|].
        right; left. split; [done|]. split; [by exists sym | done].
      * left. exists sym. by cbn.
    + right. cbn. split; [done|]. split; [done|]. by left.
  - right. cbn. split; [done|]. split; [done|]. right; right. done.
Qed.

Lemma serve_snoc (w : World) (rs : list Request) (r : Request) :
  serve w (rs ++ [r]) = (handleSymbol r (serve w rs)).1.2.
Proof. unfold serve. by rewrite fold_left_app. Qed.


Lemma handleSymbol_consistent (r : Request) (w : World) :
  consistent w -> consistent (handleSymbol r w).1.2.
Proof.
  intros Hc. destruct (handleSymbol_cases r w) as [[-> _]|(sym & Hn & ->)];
    [done|].
  by rewrite (handleSymbol_swap w sym Hn).
Qed.

Lemma serve_consistent (w : World) (rs : list Request) :
  consistent w -> consistent (serve w rs).
Proof.
  revert w. induction rs as [|r rs IH]; intros w Hc; [done|].
  cbn [serve fold_left]. apply IH. by apply handleSymbol_consistent.
Qed.




End SwapFacts.

(** ** The pipeline *)

Module PipelineFacts.
Import Num NumFacts Pipeline.

Section Decoding.

Variable unmarshalTrade : string -> option Feed.BinanceTrade.
Variable numberIsFloat : string -> bool.
Variable unmarshalFloat : string -> option Q.

Local Abbreviation step := (step unmarshalTrade numberIsFloat unmarshalFloat).
Local Abbreviation steps := (steps unmarshalTrade numberIsFloat unmarshalFloat).

(** The feed client sends prices above zero only. *)
Lemma feed_step_sends (rs rs' : Feed.RunState) (ev : Feed.Event)
    (out : list Feed.Output) :
  Feed.step unmarshalTrade numberIsFloat unmarshalFloat rs ev = Some (rs', out) ->
  Forall (fun u => (0 < Feed.pu_Price u)%Q) (sends out).
Proof.
  unfold Feed.step. intros H.
  destruct ev as [|[c|]|[message|]|s|], (Feed.loc rs);
    try discriminate H; try (inversion H; subst; by constructor).
  - inversion H; subst.
    destruct (Feed.handleMessage unmarshalTrade numberIsFloat unmarshalFloat
                message) as [u|] eqn:Eu; [|constructor].
    repeat constructor.
    by apply (FeedFacts.handleMessage_pos unmarshalTrade numberIsFloat
                unmarshalFloat message).
  - destruct (Feed.restart (Feed.client rs));
      inversion H; subst; by constructor.
Qed.

Lemma step_sound (st st' : State) (s : Step) :
  sound st -> step st s = Some st' -> sound st'.
Proof.
  intros (Hp & Hs & Hq & Hl) H.
  destruct s as [ev|wf|c|c|c|]; unfold Pipeline.step in H.
  - destruct (Feed.step _ _ _ _ ev) as [[rs out]|] eqn:Ef; [|discriminate H].
    cbn [mbind option_bind] in H.
    destruct (Nat.ltb_spec capacity (length (priceChan st ++ sends out)));
      [discriminate H|].
    inversion H; subst; clear H. unfold sound. cbn.
    split; [done|]. split; [done|]. split; [|done].
    apply Forall_app. split; [done|]. by eapply feed_step_sends.
  - destruct (priceChan st) as [|u rest] eqn:Eq; [discriminate H|].
    injection H as <-.
    unfold sound, withServer, Hub.UpdatePrice, Hub.broadcast.
    cbn [world priceChan Swap.server fst snd].
    rewrite HubFacts.deliver_fold. cbn [Hub.currentPrice Hub.processor].
    unfold Hub.add_price.
    inversion Hq; subst. cbn in Hl.
    split; [lra|]. split; [apply Forall_app; split; [done|by constructor]|].
    split; [done|lia].
  - inversion H; subst; clear H. unfold sound.
    destruct c; by cbn.
  - inversion H; subst; clear H. by unfold sound.
  - inversion H; subst; clear H. by unfold sound.
  - inversion H; subst; clear H. unfold sound, withServer, Hub.runRemoval. cbn.
    by destruct (Hub.removals (Swap.server (world st))).
Qed.

(** X19.  Prices stay sound.  From the state [main] starts in, whatever the
    goroutines do and in whatever order (the feed client, the loop that
    takes updates off the channel, the calls of the symbol handlers one by
    one, sockets being registered and removed), the stored price is never
    negative, the processor is never given a sample that is not above zero,
    and the channel never holds an update that is not above zero nor more
    than 100 of them. *)
Theorem prices_stay_sound (selectedSymbol : string) (ss : list Step)
    (st : State) (Hrun : steps (start selectedSymbol) ss = Some st) :
  sound st.
Proof.
  assert (H0 : sound (start selectedSymbol)).
  { unfold sound, capacity. cbn. repeat split; try constructor. lra. lia. }
  revert Hrun H0. generalize (start selectedSymbol) as st0. revert st.
  induction ss as [|s ss IH]; intros st st0 Hrun H0.
  - cbn in Hrun. inversion Hrun; by subst.
  - cbn [Pipeline.steps] in Hrun.
    destruct (step st0 s) as [st1|] eqn:Es; [|discriminate Hrun].
    cbn [mbind option_bind] in Hrun.
    apply (IH st st1 Hrun). by apply (step_sound st0 st1 s).
Qed.

End Decoding.

Lemma prices_stay_sound_witness :
  let trade := fun _ : string =>
                 Some {| Feed.bt_Price := "1"; Feed.bt_Time := 0 |} in
  let isFloat := fun _ : string => true in
  let float := fun _ : string => Some 1%Q in
  exists st,
    steps trade isFloat float (start "btcusdt")
      [FeedStep Feed.EvLoop; FeedStep (Feed.EvDial (Some 1%nat));
       FeedStep (Feed.EvRead (Feed.ReadOk "trade"));
       Consume (fun _ => false)] = Some st
    /\ Hub.GetPrice (Swap.server (world st)) = 1%Q
    /\ sound st.
Proof.
  cbv zeta. eexists. split; [reflexivity|]. split; [reflexivity|].
  apply (prices_stay_sound
           (fun _ => Some {| Feed.bt_Price := "1"; Feed.bt_Time := 0 |})
           (fun _ => true) (fun _ => Some 1%Q) "btcusdt"
           [FeedStep Feed.EvLoop; FeedStep (Feed.EvDial (Some 1%nat));
            FeedStep (Feed.EvRead (Feed.ReadOk "trade"));
            Consume (fun _ => false)]).
  reflexivity.
Defined.

(** X20.  A swap seen from the dashboard.  In the coin selection, [enter]
    on a coin whose symbol the server has a name for asks for the swap; the
    server makes it; the dashboard gets [symbolChangedMsg] and polls; and
    when the answers of the server to that poll arrive, with no price
    update in between, the dashboard is back in the dashboard mode and out
    of the switching state, it holds the new symbol and the name the server
    gives it, the price 0 and the change 0, no error, and an empty
    history. *)
Theorem swap_round_trip (m : Dashboard.model) (w : Swap.World)
    (coin : Dashboard.CoinInfo) (stats : Dashboard.StatsResponse)
    (Hmode : Dashboard.mode m = Dashboard.coinSelectView)
    (Hcoin : Dashboard.index (Dashboard.coins m) (Dashboard.coinCursor m)
             = Some coin)
    (Hnamed : Swap.GetCoinName (Dashboard.ci_Symbol coin)
              <> Dashboard.ci_Symbol coin) :
  let sym := Dashboard.ci_Symbol coin in
  let w' := (Swap.handleSymbol (Swap.post sym) w).1.2 in
  let env := {| Dashboard.pollEnv := serverPoll w' stats;
                Dashboard.coinsReply := None;
                Dashboard.historyReply := None;
                Dashboard.postReply := Some tt |} in
  exists m1 m2 m3 d,
    Dashboard.Update m (Dashboard.KeyMsg "enter")
    = Some (m1, [Dashboard.changeSymbol sym])
    /\ Dashboard.runCmd env (Dashboard.changeSymbol sym)
       = Some Dashboard.symbolChangedMsg
    /\ Dashboard.Update m1 Dashboard.symbolChangedMsg
       = Some (m2, [Dashboard.fetchDataCmd; Dashboard.tick])
    /\ Dashboard.runCmd env Dashboard.fetchDataCmd
       = Some (Dashboard.dataMsg d)
    /\ Dashboard.Update m2 (Dashboard.dataMsg d) = Some (m3, [])
    /\ Dashboard.mode m3 = Dashboard.dashboardView
    /\ Dashboard.switching m3 = false
    /\ Dashboard.Symbol (Dashboard.data m3) = sym
    /\ Dashboard.CoinName (Dashboard.data m3) = Swap.GetCoinName sym
    /\ Dashboard.Price (Dashboard.data m3) = 0%Q
    /\ Dashboard.Change (Dashboard.data m3) = 0%Q
    /\ Dashboard.Connected (Dashboard.data m3) = true
    /\ Dashboard.Error (Dashboard.data m3) = ""
    /\ Dashboard.history m3 = [].
Proof.
  cbv zeta. rewrite (SwapFacts.handleSymbol_swap w _ Hnamed). cbn [fst snd].
  set (sym := Dashboard.ci_Symbol coin) in *.
  set (w' := Swap.exec (Swap.CallChangeSymbol sym) _).
  set (m1 := Dashboard.set_switching true m).
  set (m2 := Dashboard.set_history []
               (Dashboard.set_mode Dashboard.dashboardView
                  (Dashboard.set_switching false m1))).
  set (d := fst (Dashboard.fetchData (serverPoll w' stats))).
  assert (Hd : Dashboard.Symbol d = sym
               /\ Dashboard.CoinName d = Swap.GetCoinName sym
               /\ Dashboard.Price d = 0%Q /\ Dashboard.Change d = 0%Q
               /\ Dashboard.Connected d = true /\ Dashboard.Error d = "")
    by done.
  destruct Hd as (Hsym & Hname & Hprice & Hchange & Hconn & Herr).
  assert (Hlen : (0 <? Z.of_nat (length (Dashboard.coins m))) = true).
  { apply Z.ltb_lt. unfold Dashboard.index in Hcoin.
    destruct (Dashboard.coinCursor m <? 0); [discriminate Hcoin|].
    apply lookup_lt_Some in Hcoin. lia. }
  exists m1, m2, (Dashboard.updateData m2 d), d. split.
  { cbn [Dashboard.Update]. unfold Dashboard.updateKey. rewrite Hmode.
    change (Dashboard.key_in "enter" ["ctrl+c"; "q"; "esc"]) with false.
    change (Dashboard.key_in "enter" ["up"; "k"]) with false.
    change (Dashboard.key_in "enter" ["down"; "j"]) with false.
    change (Dashboard.key_in "enter" ["enter"; " "]) with true.
    cbn match. rewrite Hlen.
    cbn [Dashboard.coins Dashboard.coinCursor Dashboard.set_switching].
    rewrite Hcoin. reflexivity. }
  split; [reflexivity|]. split; [reflexivity|]. split; [reflexivity|].
  split; [reflexivity|].
  destruct (DashboardFacts.updateData_frame m2 d)
    as (-> & _ & _ & _ & _ & -> & _).
  destruct (DashboardFacts.updateData_fields m2 d)
    as (-> & -> & -> & _ & _ & _ & -> & -> & _).
  split; [done|]. split; [done|]. split; [done|]. split; [done|].
  split; [done|]. split.
  { rewrite DashboardFacts.updateData_data, Hprice.
    change (Qltb 0 0) with false. rewrite andb_false_r. by cbn. }
  split; [done|]. split; [done|].
  rewrite DashboardFacts.updateData_history, Hprice.
  change (Qltb 0 0) with false.
  by destruct (DashboardFacts.kept_spec m2 d) as [[_ ->]|[_ ->]].
Qed.

Lemma swap_round_trip_witness :
  let coin := {| Dashboard.ci_Symbol := "ethusdt";
                 Dashboard.ci_Name := "Ethereum (ETH)" |} in
  let m := Dashboard.set_coins [coin] Dashboard.initialModel in
  let stats := {| Dashboard.st_MovingAverage := 0; Dashboard.st_High := 0;
                  Dashboard.st_Low := 0 |} in
  Swap.GetCoinName "ethusdt" <> "ethusdt"
  /\ exists m1 m2 m3 d,
       Dashboard.Update m (Dashboard.KeyMsg "enter")
       = Some (m1, [Dashboard.changeSymbol "ethusdt"])
       /\ Dashboard.Update m1 Dashboard.symbolChangedMsg
          = Some (m2, [Dashboard.fetchDataCmd; Dashboard.tick])
       /\ Dashboard.Update m2 (Dashboard.dataMsg d) = Some (m3, [])
       /\ Dashboard.Symbol (Dashboard.data m3) = "ethusdt"
       /\ Dashboard.history m3 = [].
Proof.
  cbv zeta.
  assert (Hn : Swap.GetCoinName "ethusdt" <> "ethusdt") by discriminate.
  split; [exact Hn|].
  destruct (swap_round_trip
              (Dashboard.set_coins
                 [{| Dashboard.ci_Symbol := "ethusdt";
                     Dashboard.ci_Name := "Ethereum (ETH)" |}]
                 Dashboard.initialModel)
              Swap.tracking
              {| Dashboard.ci_Symbol := "ethusdt";
                 Dashboard.ci_Name := "Ethereum (ETH)" |}
              {| Dashboard.st_MovingAverage := 0; Dashboard.st_High := 0;
                 Dashboard.st_Low := 0 |}
              eq_refl eq_refl Hn)
    as (m1 & m2 & m3 & d & H1 & _ & H2 & _ & H3 & _ & _ & H4 & _ & _ & _
        & _ & _ & H5).
  exists m1, m2, m3, d. repeat split; assumption.
Defined.

End PipelineFacts.

(** ** The earlier dashboard *)

Module Dashboard1Facts.
Import Num Dashboard.

(** X21.  The two dashboards.  The earlier one starts with a poll and one
    timer, and each of its steps sets one timer when it handles a [tickMsg]
    and none otherwise.  On poll results, coin lists, ticks and unknown
    messages it does what the later one does, and so it does on keys in the
    coin selection and, but for [h], in the dashboard mode; at the end of a
    swap it comes to the same model and polls, but it does not set a
    timer. *)
Theorem earlier_dashboard (m : model) (msg : Msg) :
  ticksOf Dashboard1.Init = 1%nat
  /\ (forall m' cmds, Dashboard1.Update m msg = Some (m', cmds) ->
      ticksOf cmds = match msg with tickMsg => 1%nat | _ => 0%nat end)
  /\ match msg with
     | KeyMsg key =>
         (mode m = coinSelectView ->
          Dashboard1.Update m msg = Update m msg)
         /\ (mode m = dashboardView -> key_in key ["ctrl+c"; "q"; "c"] = true
             \/ key_in key ["h"] = false ->
             Dashboard1.Update m msg = Update m msg)
     | symbolChangedMsg =>
         exists m', Update m msg = Some (m', [fetchDataCmd; tick])
                    /\ Dashboard1.Update m msg = Some (m', [fetchDataCmd])
     | historyMsg _ => Dashboard1.Update m msg = Some (m, [])
     | _ => Dashboard1.Update m msg = Update m msg
     end.
Proof.
  split; [reflexivity|]. split.
  - intros m' cmds H. destruct msg; cbn [Dashboard1.Update] in H;
      try (by inversion H).
    + unfold Dashboard1.updateKey in H.
      destruct (mode m);
        repeat (match type of H with
                | context [if key_in ?k ?l then _ else _] =>
                    destruct (key_in k l)
                | context [if ?a <? ?b then _ else _] =>
                    destruct (Z.ltb_spec a b)
                | context [index ?l ?i] =>
                    destruct (index l i); cbn [mbind option_bind] in H
                end);
        try discriminate H; by inversion H.
    + destruct (viewMode_eqb (mode m) dashboardView && negb (switching m));
        by inversion H.
  - destruct msg; try reflexivity.
    + split.
      * intros Hm. cbn. unfold Dashboard1.updateKey, updateKey. by rewrite Hm.
      * intros Hm Hk. cbn. unfold Dashboard1.updateKey, updateKey. rewrite Hm.
        unfold key_in in *. cbn in *.
        destruct (String.eqb key "ctrl+c"); [done|].
        destruct (String.eqb key "q"); [done|].
        destruct (String.eqb key "c"); [done|]. cbn in *.
        destruct (String.eqb key "h"); [|done].
        by destruct Hk.
    + eexists. by split.
Qed.

End Dashboard1Facts.
